(** * step certificate create / verify: a shallow embedding

    The two commands of [command/certificate] (verify.go and the file
    holding [createAction] and [loadIssuerIdentity]) are embedded as
    functions of a small state-and-error monad.  The state is the part of
    the world the commands touch: the file system, the random source, and
    a log of the calls made to collaborators (file reads and writes, the
    password prompt, the trust pool loader, path validation).

    The Go standard library and the packages of the repository that are
    not part of the two files ([errs], [keys], [reader], [stepx509]) are
    not re-implemented: they enter as the fields of [Env] (what a call
    answers) and of [pem.Codec] (PEM framing, with the two laws the
    proofs rely on). *)

From stdpp Require Import base option list strings gmap.
From Stdlib Require Import Strings.Ascii Strings.Byte.

Set Default Proof Using "Type".

(** Go's [[]byte]. *)
Abbreviation bytes := (list byte).

(** ** Errors

    Error values are kept symbolic: one constructor per way the two files
    build an error ([errors.WithStack], [errors.Wrapf], [errors.Errorf],
    [errs.FileError], ...), and [External] for an error handed back by a
    collaborator. *)
Inductive error : Type :=
| External (what : string)
| WithStack (cause : error)
| Wrapf (cause : error) (msg : string)
| Errorf (msg : string)
| FileError (cause : error) (path : string)
| RequiredWithFlag (flag required : string)
| EqualArguments (a b : string)
| InvalidFlagValue (flag value options : string)
| ProfileError (msg : string).

(** Spec 7, [ConfigurationError]: missing or contradictory flags, such as
    [--no-password] without [--insecure], or equal output paths. *)
Definition ConfigurationError (e : error) : Prop :=
  match e with
  | RequiredWithFlag _ _ | EqualArguments _ _ | InvalidFlagValue _ _ _ => True
  | _ => False
  end.

(** A Go result [(value, error)] of a call that cannot panic. *)
Inductive result (A : Type) : Type :=
| Val (a : A)
| Fail (e : error).
Arguments Val {A} a.
Arguments Fail {A} e.

(** How a command invocation ends: it returns [nil], returns an error,
    panics (a nil pointer dereference aborts the process), or the bound
    of a modelled loop is exhausted ([OutOfFuel], shown unreachable). *)
Inductive Outcome (A : Type) : Type :=
| Ok (a : A)
| Err (e : error)
| Panic (why : string)
| OutOfFuel.
Arguments Ok {A} a.
Arguments Err {A} e.
Arguments Panic {A} why.
Arguments OutOfFuel {A}.

(** ** encoding/pem *)
Module pem.

Record Block : Type := mkBlock {
  Type_ : string;
  Headers : list (string * string);
  Bytes : bytes
}.

(** [Decode] finds the next PEM block of its input and returns it with
    the remainder; it returns no block when none is found.
    [EncodeToMemory] is its inverse on decoded blocks.  A decoded block
    consumes input, which is what makes the loops over [Decode]
    terminate. *)
Class Codec : Type := {
  Decode : bytes → option Block * bytes;
  EncodeToMemory : Block → bytes;
  Decode_shrinks : ∀ data b rest,
    Decode data = (Some b, rest) → length rest < length data;
  Decode_EncodeToMemory : ∀ data b rest more,
    Decode data = (Some b, rest) →
    Decode (EncodeToMemory b ++ more) = (Some b, more)
}.

End pem.

(** ** urfave/cli: the resolved command line *)
Record Context : Type := mkContext {
  Args : list string;
  String_ : string → string;
  Bool_ : string → bool
}.

(** [ctx.NArg()]. *)
Definition NArg (ctx : Context) : nat := length (Args ctx).

(** [ctx.Args().Get(i)]: the empty string when out of range. *)
Definition Get (ctx : Context) (i : nat) : string := nth i (Args ctx) "".

(** ** strings.Title, on ASCII

    A letter is put in upper case when the byte before it is a separator
    (anything but an ASCII letter, digit or underscore); the string
    starts after a separator.  Bytes above 0x7F are left as they are. *)
Definition isSeparator (r : ascii) : bool :=
  let n := nat_of_ascii r in
  if bool_decide (n ≤ 127) then
    negb (bool_decide (48 ≤ n ≤ 57) || bool_decide (97 ≤ n ≤ 122)
          || bool_decide (65 ≤ n ≤ 90) || bool_decide (n = 95))
  else false.

Definition ToTitle (r : ascii) : ascii :=
  let n := nat_of_ascii r in
  if bool_decide (97 ≤ n ≤ 122) then ascii_of_nat (n - 32) else r.

Fixpoint TitleFrom (prev : ascii) (s : string) : string :=
  match s with
  | EmptyString => EmptyString
  | String r s =>
    String (if isSeparator prev then ToTitle r else r) (TitleFrom r s)
  end.

Definition Title (s : string) : string := TitleFrom " "%char s.

(** The line feed of the Go string literals. *)
Definition LF : string := String (ascii_of_nat 10) EmptyString.

(** The two prompts, [fmt.Sprintf] with the path of the key file. *)
Definition encryptPrompt (keyFile : string) : string :=
  "Password with which to encrypt private key file `" +:+ keyFile +:+ "`: ".

Definition decryptPrompt (caKeyPath : string) : string :=
  "Password with which to decrypt CA private key file `" +:+ caKeyPath
  +:+ "`: ".

(** [os.FileMode(0600)]. *)
Definition FileMode0600 : N := 0x180.

(** [reader.RetryOnEmpty], the one option the prompts are given. *)
Inductive ReadOption : Type := RetryOnEmpty.

(** ** urfave/cli: commands and their flags

    A command declares its flags; a string flag has a default [Value], a
    boolean flag is false unless given.  The help texts ([Usage],
    [UsageText], [Description]) are left out.

    The command line is taken as already cut into positional arguments
    and flags, each flag with its value ([--csr] alone has the value
    [true]).  The flags are set from left to right on a flag set that
    starts from the defaults, so the last occurrence of a flag wins.  A
    flag that the command does not declare, which is the case of [--help],
    and a value that [strconv.ParseBool] refuses for a boolean flag stop
    the command before its action: there is no context then. *)
Module cli.

Inductive Flag : Type :=
| StringFlag (Name Value : string)
| BoolFlag (Name : string) (Hidden : bool).

Definition flagName (f : Flag) : string :=
  match f with
  | StringFlag Name _ => Name
  | BoolFlag Name _ => Name
  end.

(** The value a flag has when the command line does not give it. *)
Definition flagDefault (f : Flag) : string :=
  match f with
  | StringFlag _ Value => Value
  | BoolFlag _ _ => "false"
  end.

Record Command (A : Type) : Type := mkCommand {
  Name : string;
  Action : A;
  Flags : list Flag
}.
Arguments mkCommand {A} _ _ _.
Arguments Name {A} _.
Arguments Action {A} _.
Arguments Flags {A} _.

(** [strconv.ParseBool] and [strconv.FormatBool]. *)
Definition ParseBool (s : string) : option bool :=
  if bool_decide (s ∈ ["1"; "t"; "T"; "TRUE"; "true"; "True"]) then Some true
  else if bool_decide (s ∈ ["0"; "f"; "F"; "FALSE"; "false"; "False"])
  then Some false
  else None.

Definition FormatBool (b : bool) : string := if b then "true" else "false".

(** The flag set: the declared flags, each with its current value. *)
Definition FlagSet : Type := list (string * string).

Definition newFlagSet (flags : list Flag) : FlagSet :=
  (λ f, (flagName f, flagDefault f)) <$> flags.

Definition lookup (set : FlagSet) (name : string) : option string :=
  snd <$> find (λ kv, bool_decide (kv.1 = name)) set.

Definition update (name value : string) (set : FlagSet) : FlagSet :=
  (λ kv, if bool_decide (kv.1 = name) then (name, value) else kv) <$> set.

(** One flag of the command line is set; [None] when it is refused. *)
Definition setFlag (flags : list Flag) (set : FlagSet) (name value : string)
    : option FlagSet :=
  match find (λ f, bool_decide (flagName f = name)) flags with
  | None => None
  | Some (StringFlag _ _) => Some (update name value set)
  | Some (BoolFlag _ _) =>
    match ParseBool value with
    | Some b => Some (update name (FormatBool b) set)
    | None => None
    end
  end.

Fixpoint parse (flags : list Flag) (set : FlagSet)
    (line : list (string * string)) : option FlagSet :=
  match line with
  | [] => Some set
  | (name, value) :: line =>
    match setFlag flags set name value with
    | Some set => parse flags set line
    | None => None
    end
  end.

(** What the command line gives for a flag: its last occurrence. *)
Fixpoint given (line : list (string * string)) (name : string)
    : option string :=
  match line with
  | [] => None
  | (n, v) :: line =>
    match given line name with
    | Some v' => Some v'
    | None => if bool_decide (n = name) then Some v else None
    end
  end.

(** The context an action receives: [ctx.String] is the value in the
    flag set, [ctx.Bool] that value read by [ParseBool]; a flag that is
    not in the set reads as the empty string and as false. *)
Definition context (set : FlagSet) (args : list string) : Context :=
  {| Args := args;
     String_ := λ name, default "" (lookup set name);
     Bool_ := λ name,
       match lookup set name with
       | Some v => default false (ParseBool v)
       | None => false
       end |}.

(** Running a command on positional arguments and flags: its action on
    the parsed context, or nothing when the line is refused. *)
Definition Run {A} (cmd : Command (Context → A)) (args : list string)
    (line : list (string * string)) : option A :=
  match parse (Flags cmd) (newFlagSet (Flags cmd)) line with
  | Some set => Some (Action cmd (context set args))
  | None => None
  end.

End cli.

(** Membership in a list of logged calls that is written out. *)
Ltac elem_inv :=
  repeat match goal with
    | H : _ ∈ [] |- _ => by apply elem_of_nil in H
    | H : _ ∈ _ :: _ |- _ => apply elem_of_cons in H as [H|H]
    | H : _ ∈ _ ++ _ |- _ => apply elem_of_app in H as [H|H]
    end;
  simplify_eq.


Ltac elem_here :=
  simpl;
  solve [repeat first [apply list_elem_of_here | apply list_elem_of_further]].

Section Model.

Context {Certificate PrivateKey : Type}.
Context `{codec : pem.Codec}.

(** ** crypto/x509 *)
Definition CertPool : Type := list Certificate.

(** [x509.NewCertPool()]. *)
Definition NewCertPool : CertPool := [].

(** [x509.VerifyOptions]; a nil [Roots] means the system roots. *)
Record VerifyOptions : Type := mkVerifyOptions {
  DNSName : string;
  Roots : option CertPool;
  Intermediates : CertPool
}.

(** [stepx509.Identity]. *)
Record Identity : Type := mkIdentity {
  Crt : Certificate;
  Key : PrivateKey
}.

(** [stepx509.Profile]: what a profile fixes about the certificate it
    will produce. *)
Record Profile : Type := mkProfile {
  Subject : string;
  Issuer : string;
  IsCA : bool;
  SubjectKey : PrivateKey;
  SigningKey : PrivateKey
}.

(** [profile.SubjectPrivateKey()]. *)
Definition SubjectPrivateKey (p : Profile) : PrivateKey := SubjectKey p.

(** ** The calls made to collaborators *)
Inductive Event : Type :=
| EvReadFile (path : string)
| EvReadCertPool (roots : string)
| EvVerify (leaf : Certificate) (opts : VerifyOptions)
| EvLoadIdentity (caPath caKeyPath : string)
| EvWriteFile (path : string) (data : bytes) (perm : N)
| EvReadPassword (prompt label : string) (opts : list ReadOption)
| EvWritePrivateKey (key : PrivateKey) (pass path : string).

(** ** The world *)
Record World : Type := mkWorld {
  files : gmap string bytes;
  entropy : nat;
  trace : list Event
}.

(** ** What the collaborators answer

    [entropy] arguments stand for [crypto/rand]: each use of the random
    source advances it. *)
Record Env : Type := mkEnv {
  (* errs *)
  NumberOfArguments_ : nat → nat → option error;
  (* crypto/x509 *)
  ParseCertificate : bytes → result Certificate;
  systemRoots : CertPool;
  validate : Certificate → string → CertPool → CertPool → option error;
  CreateCertificateRequest_ : nat → string → PrivateKey → result bytes;
  (* stepx509 *)
  ReadCertPool_ : gmap string bytes → string → option CertPool * option error;
  keyIsEncrypted : gmap string bytes → string → bool;
  LoadIdentityFromDisk_ :
    gmap string bytes → string → string → option string → result Identity;
  NewLeafProfile_ : nat → string → Certificate → PrivateKey → result Profile;
  NewIntermediateProfile_ :
    nat → string → Certificate → PrivateKey → result Profile;
  CreateCertificate_ : Profile → result bytes;
  (* keys *)
  GenerateDefaultKey_ : nat → result PrivateKey;
  WritePrivateKey_ : PrivateKey → string → string → result bytes;
  (* io/ioutil *)
  WriteFile_ : string → option error;
  (* reader *)
  ReadPasswordSubtle_ : string → string → list ReadOption → result string
}.

Context (env : Env).

(** ** The monad of a command *)
Definition M (A : Type) : Type := World → Outcome A * World.

Definition ret {A} (a : A) : M A := λ w, (Ok a, w).

Definition bind {A B} (m : M A) (k : A → M B) : M B :=
  λ w, match m w with
       | (Ok a, w') => k a w'
       | (Err e, w') => (Err e, w')
       | (Panic why, w') => (Panic why, w')
       | (OutOfFuel, w') => (OutOfFuel, w')
       end.

(** [return err]. *)
Definition fail {A} (e : error) : M A := λ w, (Err e, w).

Definition panic {A} (why : string) : M A := λ w, (Panic why, w).

Definition outOfFuel {A} : M A := λ w, (OutOfFuel, w).

Definition log (ev : Event) : M unit :=
  λ w, (Ok (), mkWorld (files w) (entropy w) (trace w ++ [ev])).

(** Lift a [(value, error)] result; [wrap] is what the caller does to
    the error before returning it. *)
Definition lift {A} (wrap : error → error) (r : result A) : M A :=
  match r with
  | Val a => ret a
  | Fail e => fail (wrap e)
  end.

(** The current world, for calls whose answer depends on it. *)
Definition ask : M World := λ w, (Ok w, w).

(** [if err := f(); err != nil { return wrap(err) }] around a call that
    is itself a command. *)
Definition wrapErr {A} (wrap : error → error) (m : M A) : M A :=
  λ w, match m w with
       | (Err e, w') => (Err (wrap e), w')
       | r => r
       end.

(** [if err := f(); err != nil { return wrap(err) }]. *)
Definition check (wrap : error → error) (r : option error) : M unit :=
  match r with
  | None => ret ()
  | Some e => fail (wrap e)
  end.

#[export] Instance M_ret : MRet M := @ret.
#[export] Instance M_bind : MBind M := λ A B k m, bind m k.

(** ** Calls of the verification command *)

(** [errs.NumberOfArguments(ctx, n)]: an answer to the number of
    positional arguments, [ctx.NArg()], against the [n] required. *)
Definition NumberOfArguments (ctx : Context) (n : nat) : M unit :=
  check id (NumberOfArguments_ env (NArg ctx) n).

(** [ioutil.ReadFile]: the bytes of a readable file. *)
Definition ReadFile (path : string) : M bytes :=
  log (EvReadFile path);;
  w ← ask;
  match files w !! path with
  | Some data => ret data
  | None => fail (External "open")
  end.

(** [CertPool.AppendCertsFromPEM] of crypto/x509: every block of type
    CERTIFICATE that carries no headers and parses is added to the pool;
    the answer tells whether any certificate was added. *)
Fixpoint AppendCertsFromPEM (fuel : nat) (s : CertPool) (pemCerts : bytes)
    (ok : bool) : option (CertPool * bool) :=
  match fuel with
  | O => None
  | S fuel =>
    if bool_decide (0 < length pemCerts) then
      let '(block, pemCerts) := pem.Decode pemCerts in
      match block with
      | None => Some (s, ok)
      | Some block =>
        if bool_decide (pem.Type_ block ≠ "CERTIFICATE")
           || bool_decide (length (pem.Headers block) ≠ 0)
        then AppendCertsFromPEM fuel s pemCerts ok
        else
          match ParseCertificate env (pem.Bytes block) with
          | Fail _ => AppendCertsFromPEM fuel s pemCerts ok
          | Val cert => AppendCertsFromPEM fuel (s ++ [cert]) pemCerts true
          end
      end
    else Some (s, ok)
  end.

(** [Certificate.Verify] of crypto/x509: the receiver is dereferenced at
    once, so a nil certificate panics.  With nil [Roots] the system roots
    are the trust anchors. *)
Definition trustAnchors (opts : VerifyOptions) : CertPool :=
  match Roots opts with
  | None => systemRoots env
  | Some pool => pool
  end.

Definition Verify (c : option Certificate) (opts : VerifyOptions) : M unit :=
  match c with
  | None => panic "invalid memory address or nil pointer dereference"
  | Some c =>
    log (EvVerify c opts);;
    check id (validate env c (DNSName opts) (trustAnchors opts)
                (Intermediates opts))
  end.

(** [stepx509.ReadCertPool]: a pool and an error, as Go returns them. *)
Definition ReadCertPool (roots : string)
    : M (option CertPool * option error) :=
  log (EvReadCertPool roots);;
  w ← ask;
  ret (ReadCertPool_ env (files w) roots).

(** ** Calls of the creation command *)

(** One draw from [crypto/rand]. *)
Definition draw : M nat :=
  λ w, (Ok (entropy w), mkWorld (files w) (S (entropy w)) (trace w)).

Definition store (path : string) (data : bytes) : M unit :=
  λ w, (Ok (), mkWorld (<[path := data]> (files w)) (entropy w) (trace w)).

(** [keys.GenerateDefaultKey()]. *)
Definition GenerateDefaultKey : M PrivateKey :=
  seed ← draw;
  lift id (GenerateDefaultKey_ env seed).

(** [x509.CreateCertificateRequest(rand.Reader, csr, priv)] for a request
    whose subject has the given common name. *)
Definition CreateCertificateRequest (CommonName : string)
    (priv : PrivateKey) : M bytes :=
  seed ← draw;
  lift id (CreateCertificateRequest_ env seed CommonName priv).

(** [reader.ReadPasswordSubtle(prompt, &pass, label, opts...)]. *)
Definition ReadPasswordSubtle (prompt label : string)
    (opts : list ReadOption) : M string :=
  log (EvReadPassword prompt label opts);;
  lift id (ReadPasswordSubtle_ env prompt label opts).

(** Modelled from the spec: [stepx509.LoadIdentityFromDisk] is not among
    the sources.  Spec 4.2: the certificate file and the private key
    file are read; if the key is encrypted, the password prompt supplied
    by the caller is invoked for the passphrase; a failure is
    terminal. *)
Definition LoadIdentityFromDisk (caPath caKeyPath : string)
    (prompt : M string) : M Identity :=
  log (EvLoadIdentity caPath caKeyPath);;
  w ← ask;
  pass ← (if keyIsEncrypted env (files w) caKeyPath
          then pass ← prompt; ret (Some pass)
          else ret None);
  lift id (LoadIdentityFromDisk_ env (files w) caPath caKeyPath pass).

(** [stepx509.NewLeafProfile] and [stepx509.NewIntermediateProfile]. *)
Definition NewLeafProfile (subject : string) (crt : Certificate)
    (key : PrivateKey) : M Profile :=
  seed ← draw;
  lift id (NewLeafProfile_ env seed subject crt key).

Definition NewIntermediateProfile (subject : string) (crt : Certificate)
    (key : PrivateKey) : M Profile :=
  seed ← draw;
  lift id (NewIntermediateProfile_ env seed subject crt key).

(** Modelled from the spec: [stepx509.NewRootProfile] is not among the
    sources.  Spec 4.1, kind = RootCA: generates a fresh key pair, builds
    a self-signed CA certificate with isCA=true, no issuer required;
    fails with ProfileError if subject is empty. *)
Definition NewRootProfile (subject : string) : M Profile :=
  if bool_decide (subject = "") then
    fail (ProfileError "empty subject")
  else
    key ← GenerateDefaultKey;
    ret {| Subject := subject;
           Issuer := subject;
           IsCA := true;
           SubjectKey := key;
           SigningKey := key |}.

(** [profile.CreateCertificate()]. *)
Definition CreateCertificate (profile : Profile) : M bytes :=
  lift id (CreateCertificate_ env profile).

(** [ioutil.WriteFile(path, data, perm)]. *)
Definition WriteFile (path : string) (data : bytes) (perm : N) : M unit :=
  log (EvWriteFile path data perm);;
  check id (WriteFile_ env path);;
  store path data.

(** [keys.WritePrivateKey(priv, pass, path)]: on success the file holds
    the serialised key, encrypted under [pass] unless it is empty. *)
Definition WritePrivateKey (priv : PrivateKey) (pass path : string)
    : M unit :=
  log (EvWritePrivateKey priv pass path);;
  data ← lift id (WritePrivateKey_ env priv pass path);
  store path data.

(** ** The creation command *)

Definition loadIssuerIdentity (profile caPath caKeyPath : string)
    : M Identity :=
  if bool_decide (caPath = "") then
    fail (Errorf ("Missing value for flag '--ca'." +:+ LF +:+ LF +:+ "Flags "
                  +:+ "'--ca' and '--ca-key' are required when creating a "
                  +:+ Title profile +:+ " x509 Certificate."))
  else if bool_decide (caKeyPath = "") then
    fail (Errorf ("Missing value for flag '--ca-key'." +:+ LF +:+ LF +:+ "Flags "
                  +:+ "'--ca' and '--ca-key' are required when creating a "
                  +:+ Title profile +:+ " x509 Certificate."))
  else
    LoadIdentityFromDisk caPath caKeyPath
      (wrapErr WithStack
         (ReadPasswordSubtle (decryptPrompt caKeyPath)
            "Password" [RetryOnEmpty])).

Definition createAction (ctx : Context) : M unit :=
  NumberOfArguments ctx 3;;
  (* Use password to protect private JWK by default *)
  usePassword ←
    (if Bool_ ctx "no-password" then
       if Bool_ ctx "insecure" then ret false
       else fail (RequiredWithFlag "insecure" "no-password")
     else ret true);
  let subject := Get ctx 0 in
  let crtFile := Get ctx 1 in
  let keyFile := Get ctx 2 in
  if bool_decide (crtFile = keyFile) then
    fail (EqualArguments "CRT_FILE" "KEY_FILE")
  else
  let typ := String_ ctx "type" in
  let prof := String_ ctx "profile" in
  let caPath := String_ ctx "ca" in
  let caKeyPath := String_ ctx "ca-key" in
  let typ := if Bool_ ctx "csr" then "x509-csr" else typ in
  '(priv, pubPEM) ←
    (if bool_decide (typ = "x509-csr") then
       priv ← wrapErr WithStack GenerateDefaultKey;
       csrBytes ← wrapErr WithStack (CreateCertificateRequest subject priv);
       ret (priv, pem.mkBlock "CSR" [] csrBytes)
     else if bool_decide (typ = "x509") then
       profile ←
         (if bool_decide (prof = "leaf") then
            issIdentity ←
              wrapErr WithStack (loadIssuerIdentity prof caPath caKeyPath);
            wrapErr WithStack
              (NewLeafProfile subject (Crt issIdentity) (Key issIdentity))
          else if bool_decide (prof = "intermediate-ca") then
            issIdentity ←
              wrapErr WithStack (loadIssuerIdentity prof caPath caKeyPath);
            wrapErr WithStack
              (NewIntermediateProfile subject (Crt issIdentity)
                 (Key issIdentity))
          else if bool_decide (prof = "root-ca") then
            wrapErr WithStack (NewRootProfile subject)
          else
            fail (InvalidFlagValue "profile" prof
                    "leaf, intermediate-ca, root-ca"));
       crtBytes ← wrapErr WithStack (CreateCertificate profile);
       ret (SubjectPrivateKey profile, pem.mkBlock "CERTIFICATE" [] crtBytes)
     else if bool_decide (typ = "ssh") then
       fail (Errorf "implementation incomplete! Come back later ...")
     else
       fail (InvalidFlagValue "type" typ "x509, ssh"));
  wrapErr (λ err, FileError err crtFile)
    (WriteFile crtFile (pem.EncodeToMemory pubPEM) FileMode0600);;
  pass ←
    (if (usePassword : bool) then
       wrapErr WithStack
         (ReadPasswordSubtle (encryptPrompt keyFile)
            "Password" [RetryOnEmpty])
     else ret "");
  wrapErr WithStack (WritePrivateKey priv pass keyFile).

(** ** verify.go *)

(** The loop of lines 71-87.  [crt] and [ipems] are the variables of the
    same names, [crtBytes] what is left of the file. *)
Fixpoint chainLoop (fuel : nat) (crt : option Certificate)
    (ipems crtBytes : bytes)
    : option (result (option Certificate * bytes)) :=
  match fuel with
  | O => None
  | S fuel =>
    if bool_decide (0 < length crtBytes) then
      let '(block, crtBytes) := pem.Decode crtBytes in
      match block with
      | None => Some (Val (crt, ipems))
      | Some block =>
        if bool_decide (pem.Type_ block ≠ "CERTIFICATE")
        then chainLoop fuel crt ipems crtBytes
        else
          match crt with
          | None =>
            match ParseCertificate env (pem.Bytes block) with
            | Fail err => Some (Fail (WithStack err))
            | Val crt => chainLoop fuel (Some crt) ipems crtBytes
            end
          | Some _ =>
            chainLoop fuel crt (ipems ++ pem.EncodeToMemory block) crtBytes
          end
      end
    else Some (Val (crt, ipems))
  end.

Definition verifyAction (ctx : Context) : M unit :=
  NumberOfArguments ctx 1;;
  let crtFile := Get ctx 0 in
  crtBytes ← wrapErr (λ err, FileError err crtFile) (ReadFile crtFile);
  (* The first certificate PEM in the file is our leaf Certificate.
     Any certificate after the first is added to the list of
     Intermediate certificates used for path validation. *)
  match chainLoop (S (length crtBytes)) None [] crtBytes with
  | None => outOfFuel
  | Some (Fail err) => fail err
  | Some (Val (crt, ipems)) =>
    intermediatePool ←
      (if bool_decide (0 < length ipems) then
         match AppendCertsFromPEM (S (length ipems)) NewCertPool ipems false
         with
         | None => outOfFuel
         | Some (pool, true) => ret pool
         | Some (pool, false) =>
           fail (Errorf ("failure creating intermediate list from certificate '"
                         +:+ crtFile +:+ "'"))
         end
       else ret NewCertPool);
    let host := String_ ctx "host" in
    let roots := String_ ctx "roots" in
    rootPool ←
      (if bool_decide (roots ≠ "") then
         '(rootPool, err) ← ReadCertPool roots;
         match err with
         | Some err =>
           (* the wrapped error is built and dropped: no return *)
           let _ := Wrapf err
             ("failure to load root certificate pool from input path '"
              +:+ roots +:+ "'") in
           ret rootPool
         | None => ret rootPool
         end
       else ret None);
    let opts := {| DNSName := host;
                   Roots := rootPool;
                   Intermediates := intermediatePool |} in
    wrapErr (λ err, Wrapf err "failed to verify certificate")
      (Verify crt opts)
  end.

(** ** The two commands *)

Definition verifyCommand : cli.Command (Context → M unit) :=
  {| cli.Name := "verify";
     cli.Action := verifyAction;
     cli.Flags := [cli.StringFlag "host" ""; cli.StringFlag "roots" ""] |}.

Definition createCommand : cli.Command (Context → M unit) :=
  {| cli.Name := "create";
     cli.Action := createAction;
     cli.Flags := [cli.StringFlag "type" "x509";
                   cli.StringFlag "profile" "leaf";
                   cli.BoolFlag "csr" false;
                   cli.StringFlag "ca" "";
                   cli.StringFlag "ca-key" "";
                   cli.BoolFlag "no-password" false;
                   cli.BoolFlag "insecure" true] |}.

(** ** The words of the specification, for comparison *)

(** The PEM blocks of a bundle, in file order. *)
Fixpoint pemBlocks (fuel : nat) (data : bytes) : list pem.Block :=
  match fuel with
  | O => []
  | S fuel =>
    if bool_decide (0 < length data) then
      match pem.Decode data with
      | (Some b, rest) => b :: pemBlocks fuel rest
      | (None, _) => []
      end
    else []
  end.

Definition isCertificate (b : pem.Block) : Prop :=
  pem.Type_ b = "CERTIFICATE".

#[export] Instance isCertificate_dec b : Decision (isCertificate b).
Proof. unfold isCertificate. apply _. Defined.

(** The blocks of type CERTIFICATE of a bundle, in file order. *)
Definition certificateBlocks (bundle : bytes) : list pem.Block :=
  filter isCertificate (pemBlocks (S (length bundle)) bundle).

(** Spec 4.3, [ParseChain]: the first CERTIFICATE block is the leaf, the
    CERTIFICATE blocks after it are the intermediates, in file order;
    other blocks are skipped. *)
Definition ParseChain (bundle : bytes)
    : result (option Certificate * list pem.Block) :=
  match certificateBlocks bundle with
  | [] => Val (None, [])
  | leaf :: intermediates =>
    match ParseCertificate env (pem.Bytes leaf) with
    | Fail err => Fail (WithStack err)
    | Val crt => Val (Some crt, intermediates)
    end
  end.

(** What [AppendCertsFromPEM] makes of a block. *)
Definition accepted (b : pem.Block) : option Certificate :=
  if bool_decide (pem.Type_ b ≠ "CERTIFICATE")
     || bool_decide (length (pem.Headers b) ≠ 0)
  then None
  else match ParseCertificate env (pem.Bytes b) with
       | Val cert => Some cert
       | Fail _ => None
       end.

End Model.

Arguments Env : clear implicits.
Arguments World : clear implicits.
Arguments Event : clear implicits.
Arguments M : clear implicits.

(** * Views of a run, to state the properties *)
Section Views.

Context {Certificate PrivateKey : Type}.
Context `{codec : pem.Codec}.
Context (env : Env Certificate PrivateKey).

Local Abbreviation Cert := Certificate.
Local Abbreviation World' := (World Certificate PrivateKey).
Local Abbreviation Event' := (Event Certificate PrivateKey).

(** The loop of [verifyAction], run over the blocks already decoded. *)
Fixpoint chainOver (crt : option Cert) (ipems : bytes)
    (bs : list pem.Block) : result (option Cert * bytes) :=
  match bs with
  | [] => Val (crt, ipems)
  | b :: bs =>
    if bool_decide (pem.Type_ b ≠ "CERTIFICATE") then chainOver crt ipems bs
    else match crt with
         | None =>
           match ParseCertificate env (pem.Bytes b) with
           | Fail err => Fail (WithStack err)
           | Val crt => chainOver (Some crt) ipems bs
           end
         | Some _ => chainOver crt (ipems ++ pem.EncodeToMemory b) bs
         end
  end.

(** A block that [pem.Decode] can return. *)
Definition decoded (b : pem.Block) : Prop :=
  ∃ data rest, pem.Decode data = (Some b, rest).

(** The world after some more calls were logged. *)
Definition logged (w : World') (evs : list (Event Certificate PrivateKey))
    : World' :=
  mkWorld (files w) (entropy w) (trace w ++ evs).

(** The pool handed to path validation for a list of intermediate
    blocks. *)
Definition intermediatesOf (bs : list pem.Block) : list Certificate :=
  omap (accepted env) bs.

(** The options of the final [Verify] call. *)
Definition optionsOf (ctx : Context) (fs : gmap string bytes)
    (bs : list pem.Block) : VerifyOptions :=
  {| DNSName := String_ ctx "host";
     Roots := if bool_decide (String_ ctx "roots" ≠ "")
              then (ReadCertPool_ env fs (String_ ctx "roots")).1
              else None;
     Intermediates := intermediatesOf bs |}.

(** The calls logged up to the roots stage. *)
Definition rootsCalls (ctx : Context)
    : list (Event Certificate PrivateKey) :=
  EvReadFile (Get ctx 0)
  :: (if bool_decide (String_ ctx "roots" ≠ "")
      then [EvReadCertPool (String_ ctx "roots")] else []).

(** The world after a file was written. *)
Definition stored (path : string) (data : bytes) (w : World') : World' :=
  mkWorld (<[path := data]> (files w)) (entropy w) (trace w).

(** The three stages of [createAction]: the flags of lines 107-115, the
    switch of lines 137-210 that produces the key and the PEM block, and
    the output of lines 212-228. *)
Definition usePasswordOf (ctx : Context) : M Certificate PrivateKey bool :=
  if Bool_ ctx "no-password" then
    if Bool_ ctx "insecure" then ret false
    else fail (RequiredWithFlag "insecure" "no-password")
  else ret true.

Definition produce (ctx : Context)
    : M Certificate PrivateKey (PrivateKey * pem.Block) :=
  let subject := Get ctx 0 in
  let typ := String_ ctx "type" in
  let prof := String_ ctx "profile" in
  let caPath := String_ ctx "ca" in
  let caKeyPath := String_ ctx "ca-key" in
  let typ := if Bool_ ctx "csr" then "x509-csr" else typ in
  if bool_decide (typ = "x509-csr") then
    priv ← wrapErr WithStack (GenerateDefaultKey env);
    csrBytes ← wrapErr WithStack (CreateCertificateRequest env subject priv);
    ret (priv, pem.mkBlock "CSR" [] csrBytes)
  else if bool_decide (typ = "x509") then
    profile ←
      (if bool_decide (prof = "leaf") then
         issIdentity ←
           wrapErr WithStack (loadIssuerIdentity env prof caPath caKeyPath);
         wrapErr WithStack
           (NewLeafProfile env subject (Crt issIdentity) (Key issIdentity))
       else if bool_decide (prof = "intermediate-ca") then
         issIdentity ←
           wrapErr WithStack (loadIssuerIdentity env prof caPath caKeyPath);
         wrapErr WithStack
           (NewIntermediateProfile env subject (Crt issIdentity)
              (Key issIdentity))
       else if bool_decide (prof = "root-ca") then
         wrapErr WithStack (NewRootProfile env subject)
       else
         fail (InvalidFlagValue "profile" prof
                 "leaf, intermediate-ca, root-ca"));
    crtBytes ← wrapErr WithStack (CreateCertificate env profile);
    ret (SubjectPrivateKey profile, pem.mkBlock "CERTIFICATE" [] crtBytes)
  else if bool_decide (typ = "ssh") then
    fail (Errorf "implementation incomplete! Come back later ...")
  else
    fail (InvalidFlagValue "type" typ "x509, ssh").

Definition outputStage (usePassword : bool) (crtFile keyFile : string)
    (priv : PrivateKey) (pubPEM : pem.Block) : M Certificate PrivateKey unit :=
  wrapErr (λ err, FileError err crtFile)
    (WriteFile env crtFile (pem.EncodeToMemory pubPEM) FileMode0600);;
  pass ←
    (if usePassword then
       wrapErr WithStack
         (ReadPasswordSubtle env (encryptPrompt keyFile)
            "Password" [RetryOnEmpty])
     else ret "");
  wrapErr WithStack (WritePrivateKey env priv pass keyFile).

(** The calls of the issuer stage. *)
Definition issuerEvent (ev : Event') : Prop :=
  match ev with
  | EvLoadIdentity _ _ => True
  | EvReadPassword prompt _ _ => ∃ path, prompt = decryptPrompt path
  | _ => False
  end.

(** ** The shapes of a run

    What the output stage logs, how it ends and what it leaves on disk,
    started on the files [fs]: the write of the certificate fails; or the
    prompt fails; or the key write fails; or all succeed. *)
Inductive outputShape (usePassword : bool) (crtFile keyFile : string)
    (priv : PrivateKey) (data : bytes) (fs : gmap string bytes)
    : Outcome unit → list Event' → gmap string bytes → Prop :=
| crt_write_failed err :
    WriteFile_ env crtFile = Some err →
    outputShape usePassword crtFile keyFile priv data fs
      (Err (FileError err crtFile))
      [EvWriteFile crtFile data FileMode0600]
      fs
| prompt_failed err :
    WriteFile_ env crtFile = None →
    usePassword = true →
    ReadPasswordSubtle_ env (encryptPrompt keyFile) "Password"
      [RetryOnEmpty] = Fail err →
    outputShape usePassword crtFile keyFile priv data fs
      (Err (WithStack err))
      [EvWriteFile crtFile data FileMode0600;
       EvReadPassword (encryptPrompt keyFile) "Password" [RetryOnEmpty]]
      (<[crtFile := data]> fs)
| key_write_failed pass err :
    WriteFile_ env crtFile = None →
    (if usePassword
     then ReadPasswordSubtle_ env (encryptPrompt keyFile) "Password"
            [RetryOnEmpty] = Val pass
     else pass = "") →
    WritePrivateKey_ env priv pass keyFile = Fail err →
    outputShape usePassword crtFile keyFile priv data fs
      (Err (WithStack err))
      (EvWriteFile crtFile data FileMode0600
       :: (if usePassword
           then [EvReadPassword (encryptPrompt keyFile) "Password"
                   [RetryOnEmpty]]
           else [])
       ++ [EvWritePrivateKey priv pass keyFile])
      (<[crtFile := data]> fs)
| key_written pass keyData :
    WriteFile_ env crtFile = None →
    (if usePassword
     then ReadPasswordSubtle_ env (encryptPrompt keyFile) "Password"
            [RetryOnEmpty] = Val pass
     else pass = "") →
    WritePrivateKey_ env priv pass keyFile = Val keyData →
    outputShape usePassword crtFile keyFile priv data fs
      (Ok ())
      (EvWriteFile crtFile data FileMode0600
       :: (if usePassword
           then [EvReadPassword (encryptPrompt keyFile) "Password"
                   [RetryOnEmpty]]
           else [])
       ++ [EvWritePrivateKey priv pass keyFile])
      (<[keyFile := keyData]> (<[crtFile := data]> fs)).

(** A run of [createAction] from [w]: it fails before the output stage,
    having logged issuer calls at most and written nothing; or the switch
    gives a key and a block, and the output stage follows. *)
Inductive runShape (ctx : Context) (w : World')
    : Outcome unit → list Event' → gmap string bytes → Prop :=
| run_failed err evs :
    Forall issuerEvent evs →
    runShape ctx w (Err err) evs (files w)
| run_output priv pubPEM w1 evs r out fs :
    NumberOfArguments_ env (NArg ctx) 3 = None →
    (Bool_ ctx "no-password" = true → Bool_ ctx "insecure" = true) →
    Get ctx 1 ≠ Get ctx 2 →
    produce ctx w = (Ok (priv, pubPEM), w1) →
    Forall issuerEvent evs →
    outputShape (negb (Bool_ ctx "no-password")) (Get ctx 1) (Get ctx 2)
      priv (pem.EncodeToMemory pubPEM) (files w) r out fs →
    runShape ctx w r (evs ++ out) fs.

(** The flag that [loadIssuerIdentity] reports as missing. *)
Definition missingFlag (caPath : string) : string :=
  if bool_decide (caPath = "") then "--ca" else "--ca-key".


(** The world after one draw from the random source. *)
Definition drawn (w : World') : World' :=
  mkWorld (files w) (S (entropy w)) (trace w).

(** The calls [verifyAction] can make for a command line. *)
Definition verifyCall (ctx : Context) (ev : Event') : Prop :=
  ev = EvReadFile (Get ctx 0)
  ∨ ev = EvReadCertPool (String_ ctx "roots")
  ∨ ∃ c opts, ev = EvVerify c opts ∧ DNSName opts = String_ ctx "host".

(** The password handed to the issuer loader: the answer of the prompt
    when the key file is encrypted, none otherwise. *)
Definition issuerPassword (fs : gmap string bytes) (caKeyPath : string)
    : result (option string) :=
  if keyIsEncrypted env fs caKeyPath then
    match ReadPasswordSubtle_ env (decryptPrompt caKeyPath) "Password"
            [RetryOnEmpty] with
    | Val pass => Val (Some pass)
    | Fail err => Fail err
    end
  else Val None.

(** The calls of the issuer stage for the two paths. *)
Definition issuerCalls (fs : gmap string bytes) (caPath caKeyPath : string)
    : list Event' :=
  EvLoadIdentity caPath caKeyPath
  :: (if keyIsEncrypted env fs caKeyPath
      then [EvReadPassword (decryptPrompt caKeyPath) "Password"
              [RetryOnEmpty]]
      else []).

(** The profile constructor of a profile name that needs an issuer. *)
Definition issuedProfile (prof : string)
    : nat → string → Certificate → PrivateKey → result Profile :=
  if bool_decide (prof = "leaf") then NewLeafProfile_ env
  else NewIntermediateProfile_ env.

(** The calls that write to the disk, in the order they were made. *)
Definition isWrite (ev : Event') : bool :=
  match ev with
  | EvWriteFile _ _ _ | EvWritePrivateKey _ _ _ => true
  | _ => false
  end.

Definition writes (evs : list Event') : list Event' := List.filter isWrite evs.

End Views.

(** * A concrete instance, to run the commands

    A two-byte framing stands for the PEM armour: [C] followed by one
    payload byte is a CERTIFICATE block, [H] a CERTIFICATE block that
    carries a header, [K] a PRIVATE KEY block; any other byte is text
    outside the armour.  A certificate is its payload byte, and the
    payload [!] does not parse. *)
Module Demo.

Definition frame (t : byte) : option (bytes → pem.Block) :=
  match t with
  | "C"%byte => Some (pem.mkBlock "CERTIFICATE" [])
  | "H"%byte =>
    Some (pem.mkBlock "CERTIFICATE" [("Proc-Type", "4,ENCRYPTED")])
  | "K"%byte => Some (pem.mkBlock "PRIVATE KEY" [])
  | _ => None
  end.

Fixpoint Decode (data : bytes) : option pem.Block * bytes :=
  match data with
  | [] => (None, [])
  | t :: data' =>
    match frame t, data' with
    | Some mk, p :: rest => (Some (mk [p]), rest)
    | _, _ =>
      match Decode data' with
      | (Some b, rest) => (Some b, rest)
      | (None, _) => (None, data)
      end
    end
  end.

Definition tagOf (b : pem.Block) : byte :=
  if bool_decide (pem.Type_ b = "CERTIFICATE") then
    if bool_decide (pem.Headers b = []) then "C"%byte else "H"%byte
  else "K"%byte.

Definition EncodeToMemory (b : pem.Block) : bytes := tagOf b :: pem.Bytes b.

#[global] Instance codec : pem.Codec.
Proof.
  refine {| pem.Decode := Decode; pem.EncodeToMemory := EncodeToMemory |}.
  - induction data as [|t data IH]; intros b rest Hdec; simpl in *; [done|].
    destruct (frame t) as [mk|], data as [|p data'];
      try (destruct (Decode _) as [[b'|] rest'] eqn:Hrec; simplify_eq;
           specialize (IH _ _ eq_refl); simpl in *; lia).
    simplify_eq. simpl. lia.
  - induction data as [|t data IH]; intros b rest more Hdec; simpl in *;
      [done|].
    destruct (frame t) as [mk|] eqn:Hmk, data as [|p data'];
      try (destruct (Decode _) as [[b'|] rest'] eqn:Hrec; simplify_eq;
           by apply (IH _ _ more eq_refl)).
    simplify_eq.
    destruct t; simpl in Hmk; simplify_eq; reflexivity.
Defined.

(** Certificates are payload bytes, keys are numbers. *)
Definition parse (der : bytes) : result byte :=
  match der with
  | [p] => if Byte.eqb p "!"%byte
           then Fail (External "asn1: structure error")
           else Val p
  | _ => Fail (External "asn1: structure error")
  end.

(** The certificates of a root file. *)
Fixpoint poolOf (data : bytes) : list byte :=
  match data with
  | [] => []
  | t :: data' =>
    match data' with
    | p :: rest =>
      if Byte.eqb t "C"%byte then p :: poolOf rest else poolOf data'
    | [] => []
    end
  end.

Definition env (password : result string) (keyWrite : result bytes)
    : Env byte nat :=
  {| NumberOfArguments_ := λ given required,
       if bool_decide (given = required) then None
       else Some (External "wrong number of arguments");
     ParseCertificate := parse;
     systemRoots := ["s"%byte];
     validate := λ c host roots intermediates,
       if existsb (Byte.eqb c) roots then None
       else Some (External "x509: certificate signed by unknown authority");
     CreateCertificateRequest_ := λ seed cn priv, Val ["q"%byte];
     ReadCertPool_ := λ fs roots,
       match fs !! roots with
       | Some data => (Some (poolOf data), None)
       | None => (None, Some (External "open: no such file or directory"))
       end;
     keyIsEncrypted := λ fs path, false;
     LoadIdentityFromDisk_ := λ fs caPath caKeyPath pass,
       match fs !! caPath, fs !! caKeyPath with
       | Some (_ :: c :: _), Some _ => Val (mkIdentity c 7)
       | _, _ => Fail (External "open: no such file or directory")
       end;
     NewLeafProfile_ := λ seed subject crt key,
       Val (mkProfile subject "ca" false seed key);
     NewIntermediateProfile_ := λ seed subject crt key,
       Val (mkProfile subject "ca" true seed key);
     CreateCertificate_ := λ profile, Val ["c"%byte];
     GenerateDefaultKey_ := λ seed, Val seed;
     WritePrivateKey_ := λ priv pass path, keyWrite;
     WriteFile_ := λ path, None;
     ReadPasswordSubtle_ := λ prompt label opts, password |}.

(** A command line: positional arguments, string flags, boolean flags. *)
Definition cmdline (args : list string) (flags : list (string * string))
    (switches : list string) : Context :=
  {| Args := args;
     String_ := λ name,
       default "" (snd <$> find (λ kv, bool_decide (kv.1 = name)) flags);
     Bool_ := λ name, bool_decide (name ∈ switches) |}.

Definition world (fs : list (string * bytes)) : World byte nat :=
  {| files := list_to_map fs; entropy := 0; trace := [] |}.

End Demo.

(** * The claims on concrete runs *)
Module Runs.
Import Demo.

(** PEM text in the framing of [Demo]. *)
Abbreviation pemText := String.list_byte_of_string.

(** The prompt answers [hunter2] and the key file can be written. *)
Definition env0 : Env byte nat :=
  Demo.env (Val "hunter2") (Val (pemText "Kk")).

Definition certBlock (p : byte) : pem.Block :=
  pem.mkBlock "CERTIFICATE" [] [p].


End Runs.


(** * Properties of the loops *)
Section Loops.

Context {Certificate PrivateKey : Type}.
Context `{codec : pem.Codec}.
Context (env : Env Certificate PrivateKey).

Local Abbreviation Cert := Certificate.

Lemma chainLoop_chainOver fuel : ∀ crt ipems data,
  length data < fuel →
  chainLoop (PrivateKey:=PrivateKey) env fuel crt ipems data
  = Some (chainOver env crt ipems (pemBlocks fuel data)).
Proof.
  induction fuel as [|fuel IH]; intros crt ipems data Hlen; [lia|].
  simpl. case_bool_decide as Hpos; [|done].
  destruct (pem.Decode data) as [[b|] rest] eqn:Hdec; [|done].
  pose proof (pem.Decode_shrinks _ _ _ Hdec) as Hlt.
  simpl. destruct (bool_decide (pem.Type_ b ≠ "CERTIFICATE")).
  - apply IH. lia.
  - destruct crt as [c|].
    + apply IH. lia.
    + destruct (ParseCertificate env (pem.Bytes b)); [|done].
      apply IH. lia.
Qed.

Lemma chainOver_filter bs : ∀ crt ipems,
  chainOver env crt ipems bs = chainOver env crt ipems (filter isCertificate bs).
Proof.
  induction bs as [|b bs IH]; intros crt ipems; [done|].
  rewrite filter_cons. simpl.
  destruct (decide (isCertificate b)) as [Hb|Hb]; unfold isCertificate in Hb.
  - simpl. rewrite bool_decide_false by (intros ?; done).
    destruct crt; [apply IH|].
    destruct (ParseCertificate env (pem.Bytes b)); [apply IH|done].
  - rewrite bool_decide_true by done. apply IH.
Qed.

Lemma chainOver_intermediates bs : ∀ c ipems,
  Forall isCertificate bs →
  chainOver env (Some c) ipems bs
  = Val (Some c, ipems ++ concat (pem.EncodeToMemory <$> bs)).
Proof.
  induction bs as [|b bs IH]; intros c ipems Hall; simpl.
  - by rewrite app_nil_r.
  - inversion_clear Hall as [|?? Hb Hbs].
    rewrite bool_decide_false by (intros ?; done).
    rewrite IH by done. by rewrite <-app_assoc.
Qed.

Lemma pemBlocks_decoded fuel : ∀ data, Forall decoded (pemBlocks fuel data).
Proof.
  induction fuel as [|fuel IH]; intros data; simpl; [constructor|].
  case_bool_decide; [|constructor].
  destruct (pem.Decode data) as [[b|] rest] eqn:Hdec; [|constructor].
  constructor; [by exists data, rest|apply IH].
Qed.

Lemma EncodeToMemory_nonempty b :
  decoded b → 0 < length (pem.EncodeToMemory b).
Proof.
  intros (data & rest & Hdec).
  pose proof (pem.Decode_EncodeToMemory _ _ _ [] Hdec) as Hrt.
  apply pem.Decode_shrinks in Hrt. rewrite app_nil_r in Hrt. simpl in Hrt. lia.
Qed.

(** [AppendCertsFromPEM] over re-encoded blocks keeps the certificates of
    the blocks it accepts, and reports whether there was one. *)
Lemma AppendCertsFromPEM_encoded bs : ∀ fuel s ok,
  Forall decoded bs →
  length (concat (pem.EncodeToMemory <$> bs)) < fuel →
  AppendCertsFromPEM (PrivateKey:=PrivateKey) env fuel s
    (concat (pem.EncodeToMemory <$> bs)) ok
  = Some (s ++ omap (accepted env) bs,
          ok || bool_decide (0 < length (omap (accepted env) bs))).
Proof.
  induction bs as [|b bs IH]; intros fuel s ok Hdec Hfuel.
  - destruct fuel; [simpl in Hfuel; lia|]. simpl.
    by rewrite app_nil_r, orb_false_r.
  - inversion_clear Hdec as [|?? Hb Hbs].
    pose proof (EncodeToMemory_nonempty b Hb) as Hne.
    destruct Hb as (data & rest & Hb).
    destruct fuel as [|fuel]; [lia|].
    rewrite fmap_cons in *. simpl concat in *.
    rewrite length_app in Hfuel.
    cbn [AppendCertsFromPEM].
    rewrite bool_decide_true by (rewrite length_app; lia).
    rewrite (pem.Decode_EncodeToMemory _ _ _ _ Hb).
    cbn [omap list_omap].
    destruct (accepted env b) as [c|] eqn:Hacc; revert Hacc; unfold accepted;
      destruct (bool_decide (pem.Type_ b ≠ "CERTIFICATE")
                || bool_decide (length (pem.Headers b) ≠ 0));
      try destruct (ParseCertificate env (pem.Bytes b)) as [c'|e];
      intros Hacc; simplify_eq.
    + rewrite IH by (done || lia). simpl.
      by rewrite <-app_assoc, orb_true_r.
    + apply IH; [done|lia].
    + apply IH; [done|lia].
    + apply IH; [done|lia].
Qed.

End Loops.

(** * The verification command, run symbolically *)
Section VerifyRuns.

Context {Certificate PrivateKey : Type}.
Context `{codec : pem.Codec}.
Context (env : Env Certificate PrivateKey).

Local Abbreviation World' := (World Certificate PrivateKey).

Local Arguments chainLoop : simpl never.
Local Arguments AppendCertsFromPEM : simpl never.
Local Arguments String.app : simpl never.

Lemma certificateBlocks_decoded data :
  Forall decoded (certificateBlocks data).
Proof.
  unfold certificateBlocks. apply Forall_forall. intros b Hb.
  apply list_elem_of_filter in Hb as [_ Hb].
  revert b Hb. apply Forall_forall, pemBlocks_decoded.
Qed.

Lemma certificateBlocks_isCertificate data :
  Forall isCertificate (certificateBlocks data).
Proof.
  unfold certificateBlocks. apply Forall_forall.
  intros b Hb. by apply list_elem_of_filter in Hb as [? _].
Qed.

Lemma encoded_length_pos bs :
  Forall decoded bs → bs ≠ [] →
  0 < length (concat (pem.EncodeToMemory <$> bs)).
Proof.
  intros Hdec Hne. destruct bs as [|b bs]; [done|].
  inversion_clear Hdec as [|?? Hb _].
  apply EncodeToMemory_nonempty in Hb.
  rewrite fmap_cons. simpl. rewrite length_app. lia.
Qed.

(** The loop of lines 71-87 computes [ParseChain]. *)
Lemma chainLoop_ParseChain bundle :
  chainLoop env (S (length bundle)) None [] bundle
  = Some (match ParseChain env bundle with
          | Val (leaf, intermediates) =>
            Val (leaf, concat (pem.EncodeToMemory <$> intermediates))
          | Fail err => Fail err
          end).
Proof.
  rewrite chainLoop_chainOver by lia. f_equal.
  rewrite chainOver_filter. unfold ParseChain.
  fold (certificateBlocks bundle).
  pose proof (certificateBlocks_isCertificate bundle) as Hall.
  destruct (certificateBlocks bundle) as [|leaf rest]; [done|].
  inversion_clear Hall as [|?? Hleaf Hrest]. simpl.
  rewrite bool_decide_false by (intros ?; done).
  destruct (ParseCertificate env (pem.Bytes leaf)); [|done].
  by rewrite chainOver_intermediates.
Qed.

(** Runs the roots stage and the final call on both sides of a goal. *)
Local Ltac roots_stage :=
  unfold rootsCalls, optionsOf, trustAnchors, ReadCertPool, Verify;
  unfold NewCertPool, intermediatesOf in *;
  unfold mbind, M_bind, bind, log, ask, ret, check, fail, panic; simpl;
  case_bool_decide; simpl;
  repeat match goal with
    | |- context [ReadCertPool_ ?e ?fs ?r] =>
      destruct (ReadCertPool_ e fs r) as [? [?|]]; simpl
    | |- context [validate ?e ?c ?h ?r ?i] =>
      destruct (validate e c h r i); simpl
    end;
  unfold logged; simpl; rewrite <-?app_assoc; simpl; done.

(** What [verifyAction] does once the file is read. *)
Lemma verifyAction_run ctx (w : World') data :
  NumberOfArguments_ env (NArg ctx) 1 = None →
  files w !! Get ctx 0 = Some data →
  verifyAction env ctx w =
  match ParseChain env data with
  | Fail err => (Err err, logged w [EvReadFile (Get ctx 0)])
  | Val (crt, bs) =>
    if bool_decide (bs ≠ []) && bool_decide (length (intermediatesOf env bs) = 0)
    then (Err (Errorf ("failure creating intermediate list from certificate '"
                       +:+ Get ctx 0 +:+ "'")),
          logged w [EvReadFile (Get ctx 0)])
    else
      match crt with
      | None =>
        (Panic "invalid memory address or nil pointer dereference",
         logged w (rootsCalls ctx))
      | Some c =>
        let opts := optionsOf env ctx (files w) bs in
        (match validate env c (DNSName opts) (trustAnchors env opts)
                 (Intermediates opts) with
         | None => Ok ()
         | Some err => Err (Wrapf err "failed to verify certificate")
         end,
         logged w (rootsCalls ctx ++ [EvVerify c opts]))
      end
  end.
Proof.
  intros Hargs Hfile. unfold verifyAction, NumberOfArguments.
  unfold mbind, M_bind, bind, wrapErr, ReadFile, check, log, ask, ret.
  rewrite Hargs. simpl. unfold mbind, M_bind, bind. simpl.
  rewrite Hfile. simpl.
  rewrite chainLoop_ParseChain.
  pose proof (certificateBlocks_decoded data) as Hdec.
  unfold ParseChain. fold (logged w [EvReadFile (Get ctx 0)]).
  destruct (certificateBlocks data) as [|leaf bs] eqn:Hcb.
  - simpl. roots_stage.
  - inversion_clear Hdec as [|?? Hleaf Hbs].
    destruct (ParseCertificate env (pem.Bytes leaf)) as [c|e]; [|done].
    destruct (decide (bs = [])) as [->|Hne].
    + simpl. roots_stage.
    + rewrite (bool_decide_true (bs ≠ [])) by done.
      rewrite bool_decide_true by by apply encoded_length_pos.
      rewrite AppendCertsFromPEM_encoded by (done || lia).
      simpl. fold (intermediatesOf env bs).
      destruct (intermediatesOf env bs) as [|i pool] eqn:Hint; simpl; [done|].
      rewrite <-Hint. roots_stage.
Qed.

(** The bound of the two loops is never what ends [verifyAction]. *)
Lemma verifyAction_fuel ctx (w : World') :
  (verifyAction env ctx w).1 ≠ OutOfFuel.
Proof.
  destruct (NumberOfArguments_ env (NArg ctx) 1) as [e|] eqn:Hargs.
  { unfold verifyAction, NumberOfArguments.
    unfold mbind, M_bind, bind, check, fail. by rewrite Hargs. }
  destruct (files w !! Get ctx 0) as [data|] eqn:Hfile.
  - rewrite (verifyAction_run ctx w data) by done.
    destruct (ParseChain env data) as [[[c|] bs]|e]; [| |done];
      destruct (bool_decide (bs ≠ []) && _); try done.
    simpl. by destruct (validate env c _ _ _).
  - unfold verifyAction, NumberOfArguments, ReadFile, wrapErr.
    unfold mbind, M_bind, bind, check, log, ask, ret, fail.
    rewrite Hargs. simpl. by rewrite Hfile.
Qed.

End VerifyRuns.

(** * The creation command, run symbolically *)
Section CreateRuns.

Context {Certificate PrivateKey : Type}.
Context `{codec : pem.Codec}.
Context (env : Env Certificate PrivateKey).

Local Abbreviation World' := (World Certificate PrivateKey).
Local Abbreviation Event' := (Event Certificate PrivateKey).

Lemma createAction_stages ctx :
  createAction env ctx
  = (NumberOfArguments env ctx 3;;
     usePassword ← usePasswordOf ctx;
     if bool_decide (Get ctx 1 = Get ctx 2) then
       fail (EqualArguments "CRT_FILE" "KEY_FILE")
     else
       '(priv, pubPEM) ← produce env ctx;
       outputStage env usePassword (Get ctx 1) (Get ctx 2) priv pubPEM).
Proof. reflexivity. Qed.

Local Ltac run :=
  unfold mbind, M_bind, bind, wrapErr, lift, check, log, ask, ret, fail,
    draw, store in *;
  simpl in *.

(** The switch writes no file; it logs issuer calls only, and ends in a
    value or an error. *)
Lemma produce_run ctx (w w1 : World') rp :
  produce env ctx w = (rp, w1) →
  files w1 = files w
  ∧ (∃ evs, trace w1 = trace w ++ evs ∧ Forall issuerEvent evs)
  ∧ ((∃ pp, rp = Ok pp) ∨ (∃ e, rp = Err e)).
Proof.
  unfold produce, loadIssuerIdentity, LoadIdentityFromDisk,
    ReadPasswordSubtle, NewLeafProfile, NewIntermediateProfile,
    NewRootProfile, GenerateDefaultKey, CreateCertificateRequest,
    CreateCertificate.
  run. intros Hrun.
  repeat (case_match; run; simplify_eq);
    (split; [done|]); (split; [|by eauto]);
    try (by exists []; rewrite app_nil_r);
    try (eexists; split; [done|]; repeat constructor; by eexists).
  all: rewrite <-app_assoc; eexists; split; [done|];
    repeat constructor; by eexists.
Qed.

(** The output stage, call by call. *)
Lemma outputStage_run usePassword crtFile keyFile priv pubPEM (w : World') :
  outputStage env usePassword crtFile keyFile priv pubPEM w =
  let data := pem.EncodeToMemory pubPEM in
  let prompt := EvReadPassword (encryptPrompt keyFile) "Password"
                  [RetryOnEmpty] in
  let w1 := logged w [EvWriteFile crtFile data FileMode0600] in
  match WriteFile_ env crtFile with
  | Some err => (Err (FileError err crtFile), w1)
  | None =>
    let w2 := stored crtFile data w1 in
    match (if usePassword
           then ReadPasswordSubtle_ env (encryptPrompt keyFile) "Password"
                  [RetryOnEmpty]
           else Val "") with
    | Fail err => (Err (WithStack err), logged w2 [prompt])
    | Val pass =>
      let w3 := logged w2 ((if usePassword then [prompt] else [])
                           ++ [EvWritePrivateKey priv pass keyFile]) in
      match WritePrivateKey_ env priv pass keyFile with
      | Fail err => (Err (WithStack err), w3)
      | Val keyData => (Ok (), stored keyFile keyData w3)
      end
    end
  end.
Proof.
  unfold outputStage, WriteFile, ReadPasswordSubtle, WritePrivateKey,
    logged, stored.
  run.
  destruct (WriteFile_ env crtFile); run; [done|].
  destruct usePassword; run.
  - destruct (ReadPasswordSubtle_ env _ _ _); run; [|done].
    rewrite <-app_assoc.
    by destruct (WritePrivateKey_ env _ _ _).
  - by destruct (WritePrivateKey_ env _ _ _).
Qed.

(** Every run of [createAction] is rejected before anything happens, or
    fails in the switch, or reaches the output stage. *)
Lemma createAction_inv ctx (w w' : World') r :
  createAction env ctx w = (r, w') →
  (∃ e, r = Err e ∧ w' = w
        ∧ (NumberOfArguments_ env (NArg ctx) 3 = Some e
           ∨ (Bool_ ctx "no-password" = true ∧ Bool_ ctx "insecure" = false
              ∧ e = RequiredWithFlag "insecure" "no-password")
           ∨ (Get ctx 1 = Get ctx 2
              ∧ e = EqualArguments "CRT_FILE" "KEY_FILE")))
  ∨ (NumberOfArguments_ env (NArg ctx) 3 = None
     ∧ (Bool_ ctx "no-password" = true → Bool_ ctx "insecure" = true)
     ∧ Get ctx 1 ≠ Get ctx 2
     ∧ ∃ rp w1, produce env ctx w = (rp, w1)
         ∧ match rp with
           | Ok (priv, pubPEM) =>
             outputStage env (negb (Bool_ ctx "no-password"))
               (Get ctx 1) (Get ctx 2) priv pubPEM w1 = (r, w')
           | Err e => r = Err e ∧ w' = w1
           | _ => False
           end).
Proof.
  rewrite createAction_stages. unfold NumberOfArguments, usePasswordOf.
  unfold mbind, M_bind, bind, check, ret, fail. simpl.
  destruct (NumberOfArguments_ env (NArg ctx) 3) as [e|] eqn:Hargs; simpl.
  { intros [= <- <-]. left. eauto 10. }
  destruct (Bool_ ctx "no-password") eqn:Hnp;
    [destruct (Bool_ ctx "insecure") eqn:Hins|]; simpl;
    try (intros [= <- <-]; left; by eauto 10).
  all: case_bool_decide as Heq; simpl;
    [intros [= <- <-]; left; by eauto 10|].
  all: intros Hrun; right; do 3 (split; [done|]).
  all: destruct (produce env ctx w) as [rp w1] eqn:Hprod.
  all: pose proof (produce_run _ _ _ _ Hprod) as (_ & _ & [[[priv pub] ->]|[e ->]]).
  all: eexists _, w1; split; [done|]; simpl.
  all: first [done | by injection Hrun as <- <-].
Qed.


Lemma outputStage_shape usePassword crtFile keyFile priv pubPEM
    (w w' : World') r :
  outputStage env usePassword crtFile keyFile priv pubPEM w = (r, w') →
  ∃ out, trace w' = trace w ++ out
    ∧ outputShape env usePassword crtFile keyFile priv
        (pem.EncodeToMemory pubPEM) (files w) r out (files w').
Proof.
  rewrite outputStage_run. unfold logged, stored. simpl.
  destruct (WriteFile_ env crtFile) as [e|] eqn:Hwrite.
  { intros [= <- <-]. eexists. split; [done|]. by constructor. }
  destruct usePassword; simpl.
  - destruct (ReadPasswordSubtle_ env _ _ _) as [pass|e] eqn:Hpass.
    + destruct (WritePrivateKey_ env _ _ _) as [kd|e] eqn:Hkey;
        intros [= <- <-]; simpl; rewrite <-app_assoc;
        (eexists; split; [done|]).
      * by apply (key_written env true _ _ _ _ _ pass).
      * by apply (key_write_failed env true _ _ _ _ _ pass).
    + intros [= <- <-]. simpl. rewrite <-app_assoc.
      eexists. split; [done|]. by constructor.
  - destruct (WritePrivateKey_ env _ _ _) as [kd|e] eqn:Hkey;
      intros [= <- <-]; simpl; rewrite <-app_assoc;
      (eexists; split; [done|]).
    + by apply (key_written env false _ _ _ _ _ "").
    + by apply (key_write_failed env false _ _ _ _ _ "").
Qed.

Lemma createAction_shape ctx (w w' : World') r evs :
  createAction env ctx w = (r, w') →
  trace w' = trace w ++ evs →
  runShape env ctx w r evs (files w').
Proof.
  intros Hrun Htrace. apply createAction_inv in Hrun.
  destruct Hrun
    as [(e & Hr & Hw & _)|(Hargs & Hflags & Hne & rp & w1 & Hprod & Hout)].
  { subst r w'. replace evs with (@nil Event'); [by constructor|].
    apply (f_equal length) in Htrace. rewrite length_app in Htrace.
    destruct evs; [done|simpl in Htrace; lia]. }
  destruct (produce_run _ _ _ _ Hprod) as (Hfs & (evs_p & Hp & Hiss) & _).
  destruct rp as [[priv pub]|e| |]; try done.
  - apply outputStage_shape in Hout as (out & Hout & Hshape).
    rewrite Hp, <-app_assoc in Hout. rewrite Hout in Htrace.
    apply app_inv_head in Htrace. subst evs.
    rewrite Hfs in Hshape. by eapply run_output.
  - destruct Hout as [-> ->]. rewrite Hp in Htrace.
    apply app_inv_head in Htrace. subst evs. rewrite Hfs.
    by constructor.
Qed.

(** [createAction] returns: with [nil] or with an error. *)
Lemma createAction_returns ctx (w w' : World') r :
  createAction env ctx w = (r, w') → r = Ok () ∨ ∃ e, r = Err e.
Proof.
  intros Hrun. apply createAction_inv in Hrun.
  destruct Hrun as [(e & Hr & _)|(_ & _ & _ & rp & w1 & _ & Hout)];
    [by eauto|].
  destruct rp as [[priv pub]|e| |]; try done.
  - apply outputStage_shape in Hout as (out & _ & Hshape).
    destruct Hshape; by eauto.
  - destruct Hout as [-> _]. by eauto.
Qed.


End CreateRuns.


(** * Chain assembly and verification *)
Section VerifyClaims.

Context {Certificate PrivateKey : Type}.
Context `{codec : pem.Codec}.
Context (env : Env Certificate PrivateKey).

Local Arguments chainLoop : simpl never.
Local Arguments AppendCertsFromPEM : simpl never.


(** C3, as the code has it.  A first CERTIFICATE block that does not
    parse ends the command with the parse error, with a stack attached.
    With a leaf that parses, the error about the intermediate list is
    returned when there are CERTIFICATE blocks after the leaf and none of
    them gives a certificate (each is malformed or carries headers).
    The two errors differ. *)
Theorem C3_leaf_and_intermediate_errors (ctx : Context)
    (w : World Certificate PrivateKey) (data : bytes)
    (leaf : pem.Block) (rest : list pem.Block) :
  NumberOfArguments_ env (NArg ctx) 1 = None →
  files w !! Get ctx 0 = Some data →
  certificateBlocks data = leaf :: rest →
  (∀ err, ParseCertificate env (pem.Bytes leaf) = Fail err →
     verifyAction env ctx w
     = (Err (WithStack err), logged w [EvReadFile (Get ctx 0)]))
  ∧ (∀ crt, ParseCertificate env (pem.Bytes leaf) = Val crt →
       rest ≠ [] →
       Forall (λ b, accepted env b = None) rest →
       verifyAction env ctx w
       = (Err (Errorf
                 ("failure creating intermediate list from certificate '"
                  +:+ Get ctx 0 +:+ "'")),
          logged w [EvReadFile (Get ctx 0)]))
  ∧ (∀ err msg, WithStack err ≠ Errorf msg).
Proof.
  intros Hargs Hfile Hcb. split; [|split].
  - intros err Hleaf. rewrite (verifyAction_run env ctx w data) by done.
    unfold ParseChain. by rewrite Hcb, Hleaf.
  - intros crt Hleaf Hne Hnone.
    rewrite (verifyAction_run env ctx w data) by done.
    unfold ParseChain. rewrite Hcb, Hleaf.
    rewrite bool_decide_true by done.
    rewrite bool_decide_true; [done|].
    unfold intermediatesOf. clear -Hnone.
    induction Hnone as [|b bs Hb _ IH]; [done|]. simpl. by rewrite Hb.
  - done.
Qed.

(** C9, as the code has it.  A readable file without a CERTIFICATE block
    leaves [crt] nil; nothing checks it, and the final call dereferences
    it: the command panics instead of returning an error. *)
Theorem C9_nil_leaf_reaches_Verify (ctx : Context)
    (w : World Certificate PrivateKey) (data : bytes) :
  NumberOfArguments_ env (NArg ctx) 1 = None →
  files w !! Get ctx 0 = Some data →
  certificateBlocks data = [] →
  verifyAction env ctx w
  = (Panic "invalid memory address or nil pointer dereference",
     logged w (rootsCalls ctx))
  ∧ ∀ err w', verifyAction env ctx w ≠ (Err err, w').
Proof.
  intros Hargs Hfile Hcb.
  rewrite (verifyAction_run env ctx w data) by done.
  unfold ParseChain. rewrite Hcb. simpl. done.
Qed.

(** C1, as the code has it.  When the roots fail to load, the wrapped
    error is built and dropped: path validation runs all the same, with
    the pool the loader returned next to its error, and the outcome is
    that of the validation.  With a nil pool the trust anchors are the
    system roots. *)
Theorem C1_roots_load_error_is_dropped (ctx : Context)
    (w : World Certificate PrivateKey) (data : bytes)
    (crt : Certificate) (bs : list pem.Block)
    (rootPool : option CertPool) (err : error) :
  NumberOfArguments_ env (NArg ctx) 1 = None →
  files w !! Get ctx 0 = Some data →
  ParseChain env data = Val (Some crt, bs) →
  (bs = [] ∨ 0 < length (intermediatesOf env bs)) →
  String_ ctx "roots" ≠ "" →
  ReadCertPool_ env (files w) (String_ ctx "roots") = (rootPool, Some err) →
  let opts := {| DNSName := String_ ctx "host";
                 Roots := rootPool;
                 Intermediates := intermediatesOf env bs |} in
  verifyAction env ctx w
  = (match validate env crt (String_ ctx "host") (trustAnchors env opts)
             (intermediatesOf env bs) with
     | None => Ok ()
     | Some verr => Err (Wrapf verr "failed to verify certificate")
     end,
     logged w [EvReadFile (Get ctx 0);
               EvReadCertPool (String_ ctx "roots");
               EvVerify crt opts])
  ∧ (rootPool = None → trustAnchors env opts = systemRoots env).
Proof.
  intros Hargs Hfile Hchain Hpool Hroots Hload opts. split.
  - rewrite (verifyAction_run env ctx w data) by done. rewrite Hchain.
    replace (bool_decide (bs ≠ [])
             && bool_decide (length (intermediatesOf env bs) = 0))
      with false.
    2:{ symmetry. destruct Hpool as [->|Hpos].
        - by rewrite bool_decide_false by (intros ?; done).
        - rewrite (bool_decide_false (_ = 0)) by lia. apply andb_false_r. }
    unfold optionsOf, rootsCalls. rewrite bool_decide_true by done.
    rewrite Hload. done.
  - intros ->. done.
Qed.


End VerifyClaims.

(** * Creation *)
Section CreateClaims.

Context {Certificate PrivateKey : Type}.
Context `{codec : pem.Codec}.
Context (env : Env Certificate PrivateKey).

Local Abbreviation World' := (World Certificate PrivateKey).
Local Abbreviation Event' := (Event Certificate PrivateKey).

Local Ltac run :=
  unfold mbind, M_bind, bind, wrapErr, lift, check, log, ask, ret, fail,
    draw, store in *;
  simpl in *.

(** C5.  When the certificate path and the key path are equal the
    command returns an error and leaves the world as it was: no key is
    generated, no file is written, nothing is asked.  With its three
    arguments given the error is a configuration error, the one about
    equal arguments unless [--no-password] came without [--insecure]. *)
Theorem C5_equal_output_paths (ctx : Context) (w : World') :
  Get ctx 1 = Get ctx 2 →
  ∃ e, createAction env ctx w = (Err e, w)
    ∧ (NumberOfArguments_ env (NArg ctx) 3 = None →
       ConfigurationError e
       ∧ (e = EqualArguments "CRT_FILE" "KEY_FILE"
          ∨ e = RequiredWithFlag "insecure" "no-password"
            ∧ Bool_ ctx "no-password" = true
            ∧ Bool_ ctx "insecure" = false)).
Proof.
  intros Heq. rewrite createAction_stages.
  unfold NumberOfArguments, usePasswordOf. run.
  destruct (NumberOfArguments_ env (NArg ctx) 3) as [e|]; run.
  { by exists e. }
  destruct (Bool_ ctx "no-password"), (Bool_ ctx "insecure"); run;
    rewrite ?bool_decide_true by done;
    eexists; (split; [done|]); intros _; (split; [done|]); auto.
Qed.

(** C4.  With [--ca] or [--ca-key] empty, [loadIssuerIdentity] returns
    an error whose message starts by naming the missing flag, and the
    world is as it was: the issuer files are not touched.  A leaf or
    intermediate-ca creation returns this error with a stack attached.
    A root-ca or CSR creation does not look at the two flags. *)
Theorem C4_missing_issuer (ctx : Context) (w : World') :
  (∀ profile caPath caKeyPath,
     caPath = "" ∨ caKeyPath = "" →
     ∃ msg, loadIssuerIdentity env profile caPath caKeyPath w
            = (Err (Errorf msg), w)
       ∧ String.prefix
           ("Missing value for flag '" +:+ missingFlag caPath +:+ "'.") msg
         = true)
  ∧ (NumberOfArguments_ env (NArg ctx) 3 = None →
     (Bool_ ctx "no-password" = true → Bool_ ctx "insecure" = true) →
     Get ctx 1 ≠ Get ctx 2 →
     Bool_ ctx "csr" = false →
     String_ ctx "type" = "x509" →
     String_ ctx "profile" = "leaf"
     ∨ String_ ctx "profile" = "intermediate-ca" →
     String_ ctx "ca" = "" ∨ String_ ctx "ca-key" = "" →
     ∃ msg, createAction env ctx w = (Err (WithStack (Errorf msg)), w)
       ∧ String.prefix
           ("Missing value for flag '" +:+ missingFlag (String_ ctx "ca")
            +:+ "'.") msg
         = true)
  ∧ (Bool_ ctx "csr" = true
     ∨ String_ ctx "type" = "x509-csr"
     ∨ String_ ctx "type" = "x509" ∧ String_ ctx "profile" = "root-ca" →
     (∀ ctx',
        Args ctx' = Args ctx →
        Bool_ ctx' = Bool_ ctx →
        (∀ name, name ≠ "ca" → name ≠ "ca-key" →
                 String_ ctx' name = String_ ctx name) →
        createAction env ctx' w = createAction env ctx w)
     ∧ ∀ r w' evs caPath caKeyPath,
         createAction env ctx w = (r, w') →
         trace w' = trace w ++ evs →
         EvLoadIdentity caPath caKeyPath ∉ evs).
Proof.
  assert (Hload : ∀ profile caPath caKeyPath,
     caPath = "" ∨ caKeyPath = "" →
     ∃ msg, loadIssuerIdentity env profile caPath caKeyPath w
            = (Err (Errorf msg), w)
       ∧ String.prefix
           ("Missing value for flag '" +:+ missingFlag caPath +:+ "'.") msg
         = true).
  { intros profile caPath caKeyPath Hempty.
    unfold loadIssuerIdentity, missingFlag. run.
    case_bool_decide as Hca; [by eexists|].
    destruct Hempty as [?| ->]; [done|].
    rewrite bool_decide_true by done. by eexists. }
  split; [done|]. split.
  - intros Hargs Hflags Hne Hcsr Htyp Hprof Hempty.
    destruct (Hload (String_ ctx "profile") (String_ ctx "ca")
                (String_ ctx "ca-key") Hempty) as (msg & Hmsg & Hpre).
    exists msg. split; [|done].
    rewrite createAction_stages. unfold NumberOfArguments, usePasswordOf.
    run. rewrite Hargs. run.
    assert (∀ (k : bool → M Certificate PrivateKey unit),
      (let (o, w') :=
         (if Bool_ ctx "no-password"
          then if Bool_ ctx "insecure" then ret false
               else fail (RequiredWithFlag "insecure" "no-password")
          else ret true) w in
       match o with
       | Ok a => k a w'
       | Err e => (Err e, w')
       | Panic why => (Panic why, w')
       | OutOfFuel => (OutOfFuel, w')
       end) = k (negb (Bool_ ctx "no-password")) w) as ->.
    { intros k. destruct (Bool_ ctx "no-password"); [|done].
      by rewrite Hflags. }
    rewrite bool_decide_false by done.
    unfold produce. run. rewrite Hcsr, Htyp. run.
    destruct Hprof as [Hprof|Hprof]; rewrite Hprof in *; run;
      by rewrite Hmsg.
  - intros Hkind. split.
    + intros ctx' HArgs HBool HString.
      rewrite !createAction_stages.
      unfold NumberOfArguments, usePasswordOf, produce, NArg, Get.
      rewrite HArgs, HBool.
      rewrite (HString "type"), (HString "profile") by done.
      destruct Hkind as [Hcsr|[Htyp|[Htyp Hprof]]].
      * rewrite Hcsr. done.
      * rewrite Htyp. by destruct (Bool_ ctx "csr").
      * rewrite Htyp, Hprof. by destruct (Bool_ ctx "csr").
    + intros r w' evs caPath caKeyPath Hrun Htrace Hin.
      apply createAction_inv in Hrun.
      destruct Hrun
        as [(e & Hr & Hw & _)|(_ & _ & _ & rp & w1 & Hprod & Hout)].
      { subst r w'. apply (f_equal length) in Htrace. rewrite length_app in Htrace.
        destruct evs; [elem_inv|simpl in Htrace; lia]. }
      assert (trace w1 = trace w) as Hw1.
      { revert Hprod. unfold produce, NewRootProfile, GenerateDefaultKey,
          CreateCertificateRequest, CreateCertificate.
        destruct Hkind as [Hcsr|[Htyp|[Htyp Hprof]]].
        - rewrite Hcsr. run. intros Hprod.
          by repeat (case_match; run; simplify_eq).
        - rewrite Htyp. destruct (Bool_ ctx "csr"); run; intros Hprod;
            by repeat (case_match; run; simplify_eq).
        - rewrite Htyp, Hprof. destruct (Bool_ ctx "csr"); run;
            intros Hprod; by repeat (case_match; run; simplify_eq). }
      destruct rp as [[priv pub]|e| |]; try done.
      * rewrite outputStage_run in Hout. unfold logged, stored in Hout.
        simpl in Hout. rewrite Hw1 in Hout.
        repeat case_match; injection Hout as <- <-; simpl in Htrace;
          rewrite <-?app_assoc in Htrace;
          apply app_inv_head in Htrace; subst evs; simpl in Hin; elem_inv.
      * destruct Hout as [-> ->]. rewrite Hw1 in Htrace.
        apply (f_equal length) in Htrace. rewrite length_app in Htrace.
        destruct evs; [elem_inv|simpl in Htrace; lia].
Qed.

(** Names for what a case of [runShape] brings. *)
Local Ltac name_shape :=
  try match goal with
    | H : Forall issuerEvent _ |- _ => rename H into Hiss end;
  try match goal with
    | H : outputShape _ _ _ _ _ _ _ _ _ _ |- _ => rename H into Hout end;
  try match goal with
    | H : Get _ 1 ≠ Get _ 2 |- _ => rename H into Hne end;
  try match goal with
    | H : produce _ _ _ = _ |- _ => rename H into Hprod end;
  try match goal with
    | H : NumberOfArguments_ _ _ _ = None |- _ => rename H into Hargs end;
  try match goal with
    | H : Bool_ _ _ = true → _ |- _ => rename H into Hflags end.







(** C7.  [NewRootProfile] refuses the empty subject with a profile
    error.  For another subject it draws a key pair from the random
    source and gives a profile of a CA ([IsCA] true) that is
    self-signed: issued to and by the subject, signed with the key it
    certifies.  In [createAction] the root-ca profile returns the profile
    error for an empty subject, touching nothing; for another subject no
    issuer is loaded, whatever [--ca] and [--ca-key] hold, the
    certificate made from that profile is the first thing written, and
    the key written is the new one. *)
Theorem C7_root_profile (ctx : Context) (w : World') :
  NewRootProfile env "" w = (Err (ProfileError "empty subject"), w)
  ∧ (∀ subject key,
       subject ≠ "" →
       GenerateDefaultKey_ env (entropy w) = Val key →
       ∃ profile,
         NewRootProfile env subject w = (Ok profile, drawn w)
         ∧ Subject profile = subject
         ∧ Issuer profile = subject
         ∧ IsCA profile = true
         ∧ SubjectKey profile = key
         ∧ SigningKey profile = key)
  ∧ (NumberOfArguments_ env (NArg ctx) 3 = None →
     (Bool_ ctx "no-password" = true → Bool_ ctx "insecure" = true) →
     Get ctx 1 ≠ Get ctx 2 →
     Bool_ ctx "csr" = false →
     String_ ctx "type" = "x509" →
     String_ ctx "profile" = "root-ca" →
     (Get ctx 0 = "" →
      createAction env ctx w
      = (Err (WithStack (ProfileError "empty subject")), w))
     ∧ (∀ key der r w' evs,
          Get ctx 0 ≠ "" →
          GenerateDefaultKey_ env (entropy w) = Val key →
          CreateCertificate_ env
            {| Subject := Get ctx 0; Issuer := Get ctx 0; IsCA := true;
               SubjectKey := key; SigningKey := key |} = Val der →
          createAction env ctx w = (r, w') →
          trace w' = trace w ++ evs →
          entropy w' = S (entropy w)
          ∧ (∃ out,
               evs = EvWriteFile (Get ctx 1)
                       (pem.EncodeToMemory
                          (pem.mkBlock "CERTIFICATE" [] der))
                       FileMode0600 :: out)
          ∧ (∀ caPath caKeyPath, EvLoadIdentity caPath caKeyPath ∉ evs)
          ∧ (∀ k pass path,
               EvWritePrivateKey k pass path ∈ evs → k = key))).
Proof.
  split; [done|]. split.
  - intros subject key Hne Hkey. unfold NewRootProfile, GenerateDefaultKey.
    rewrite bool_decide_false by done. run. rewrite Hkey. run.
    eexists. split; [done|]. done.
  - intros Hargs Hflags Hne Hcsr Htyp Hprof.
    assert (∀ w0 : World',
      createAction env ctx w0
      = ('(priv, pubPEM) ← produce env ctx;
         outputStage env (negb (Bool_ ctx "no-password"))
           (Get ctx 1) (Get ctx 2) priv pubPEM) w0) as Hstages.
    { intros w0. rewrite createAction_stages.
      unfold NumberOfArguments, usePasswordOf. run. rewrite Hargs. run.
      destruct (Bool_ ctx "no-password"); run;
        [rewrite Hflags by done; run|];
        by rewrite bool_decide_false by done. }
    split.
    + intros Hsubj. rewrite Hstages. unfold produce, NewRootProfile. run.
      by rewrite Hcsr, Htyp, Hprof, Hsubj.
    + intros key der r w' evs Hsubj Hkey Hder. rewrite Hstages.
      unfold produce, NewRootProfile, GenerateDefaultKey,
        CreateCertificate, SubjectPrivateKey.
      run. rewrite Hcsr, Htyp, Hprof. run.
      rewrite bool_decide_false by done. run.
      rewrite Hkey. run. rewrite Hder. run.
      rewrite outputStage_run. unfold logged, stored. simpl.
      intros Hrun Htrace.
      repeat case_match; injection Hrun as <- <-; simpl in *;
        rewrite <-?app_assoc in Htrace; apply app_inv_head in Htrace;
        subst evs; (split; [done|]); (split; [by eexists|]);
        (split; [intros ?? Hin|intros ??? Hin]); simpl in Hin;
        by elem_inv.
Qed.

End CreateClaims.




(** [step certificate verify leaf.crt --roots /missing]: the roots cannot
    be loaded, and the leaf is validated against the system roots and
    accepted. *)
Lemma C1_roots_load_error_is_dropped_witness :
  let ctx := Demo.cmdline ["leaf.crt"] [("roots", "/missing")] [] in
  let w := Demo.world [("leaf.crt", Runs.pemText "Cs")] in
  ReadCertPool_ Runs.env0 (files w) "/missing"
  = (None, Some (External "open: no such file or directory"))
  ∧ verifyAction Runs.env0 ctx w
    = (Ok (),
       logged w [EvReadFile "leaf.crt"; EvReadCertPool "/missing";
                 EvVerify "s"%byte
                   {| DNSName := ""; Roots := None; Intermediates := [] |}]).
Proof.
  intros ctx w. split; [vm_compute; reflexivity|].
  refine (proj1 (C1_roots_load_error_is_dropped Runs.env0 ctx w
                   (Runs.pemText "Cs") "s"%byte [] None
                   (External "open: no such file or directory")
                   _ _ _ _ _ _)).
  - vm_compute; reflexivity.
  - vm_compute; reflexivity.
  - vm_compute; reflexivity.
  - left; reflexivity.
  - vm_compute; intros H; discriminate H.
  - vm_compute; reflexivity.
Defined.

(** A leaf that does not parse, and a leaf followed by intermediates of
    which none gives a certificate. *)
Lemma C3_leaf_and_intermediate_errors_witness :
  let ctx := Demo.cmdline ["chain.crt"] [] [] in
  let w1 := Demo.world [("chain.crt", Runs.pemText "C!Ca")] in
  let w2 := Demo.world [("chain.crt", Runs.pemText "CsC!Hh")] in
  verifyAction Runs.env0 ctx w1
  = (Err (WithStack (External "asn1: structure error")),
     logged w1 [EvReadFile "chain.crt"])
  ∧ verifyAction Runs.env0 ctx w2
    = (Err (Errorf
              "failure creating intermediate list from certificate 'chain.crt'"),
       logged w2 [EvReadFile "chain.crt"]).
Proof.
  intros ctx w1 w2. split.
  - refine (proj1 (C3_leaf_and_intermediate_errors Runs.env0 ctx w1
                     (Runs.pemText "C!Ca") (Runs.certBlock "!")
                     [Runs.certBlock "a"] _ _ _) _ _);
      vm_compute; reflexivity.
  - refine (proj1 (proj2 (C3_leaf_and_intermediate_errors Runs.env0 ctx w2
                     (Runs.pemText "CsC!Hh") (Runs.certBlock "s")
                     [Runs.certBlock "!";
                      pem.mkBlock "CERTIFICATE"
                        [("Proc-Type", "4,ENCRYPTED")] ["h"%byte]]
                     _ _ _)) "s"%byte _ _ _).
    + vm_compute; reflexivity.
    + vm_compute; reflexivity.
    + vm_compute; reflexivity.
    + vm_compute; reflexivity.
    + intros H; discriminate H.
    + repeat constructor.
Defined.

(** The claim of C3 as the specification states it fails: in the bundle
    [CsCbC!] the leaf and the first intermediate parse, the second
    intermediate does not, and the command succeeds. *)
Lemma C3_counterexample :
  ¬ ∀ (ctx : Context) (w : World byte nat) (data : bytes)
      (leaf b : pem.Block) (rest : list pem.Block),
      NumberOfArguments_ Runs.env0 (NArg ctx) 1 = None →
      files w !! Get ctx 0 = Some data →
      certificateBlocks data = leaf :: rest →
      (∃ crt, ParseCertificate Runs.env0 (pem.Bytes leaf) = Val crt) →
      b ∈ rest →
      (∃ err, ParseCertificate Runs.env0 (pem.Bytes b) = Fail err) →
      ∃ msg w', verifyAction Runs.env0 ctx w = (Err (Errorf msg), w').
Proof.
  intros Hclaim.
  destruct (Hclaim (Demo.cmdline ["chain.crt"] [] [])
              (Demo.world [("chain.crt", Runs.pemText "CsCbC!")])
              (Runs.pemText "CsCbC!") (Runs.certBlock "s")
              (Runs.certBlock "!")
              [Runs.certBlock "b"; Runs.certBlock "!"])
    as (msg & w' & Hrun).
  - vm_compute; reflexivity.
  - vm_compute; reflexivity.
  - vm_compute; reflexivity.
  - by eexists.
  - elem_here.
  - by eexists.
  - vm_compute in Hrun. discriminate Hrun.
Qed.


(** A file that holds no PEM block at all. *)
Lemma C9_nil_leaf_reaches_Verify_witness :
  let ctx := Demo.cmdline ["leaf.crt"] [] [] in
  let w := Demo.world [("leaf.crt", Runs.pemText "hello")] in
  verifyAction Runs.env0 ctx w
  = (Panic "invalid memory address or nil pointer dereference",
     logged w [EvReadFile "leaf.crt"]).
Proof.
  intros ctx w.
  refine (proj1 (C9_nil_leaf_reaches_Verify Runs.env0 ctx w
                   (Runs.pemText "hello") _ _ _));
    vm_compute; reflexivity.
Defined.

(** [step certificate create foo foo.crt foo.key] with the default leaf
    profile and no [--ca]. *)
Lemma C4_missing_issuer_witness :
  let ctx := Demo.cmdline ["foo"; "foo.crt"; "foo.key"]
               [("type", "x509"); ("profile", "leaf");
                ("ca-key", "ca.key")] [] in
  let w := Demo.world [] in
  ∃ msg, createAction Runs.env0 ctx w = (Err (WithStack (Errorf msg)), w)
    ∧ String.prefix "Missing value for flag '--ca'." msg = true.
Proof.
  intros ctx w.
  refine (proj1 (proj2 (C4_missing_issuer Runs.env0 ctx w)) _ _ _ _ _ _ _).
  - vm_compute; reflexivity.
  - vm_compute; intros H; discriminate H.
  - vm_compute; intros H; discriminate H.
  - vm_compute; reflexivity.
  - vm_compute; reflexivity.
  - left; vm_compute; reflexivity.
  - left; vm_compute; reflexivity.
Defined.

(** The same path for the certificate and for the key. *)
Lemma C5_equal_output_paths_witness :
  let ctx := Demo.cmdline ["foo"; "out.pem"; "out.pem"]
               [("type", "x509"); ("profile", "root-ca")] [] in
  let w := Demo.world [] in
  ∃ e, createAction Runs.env0 ctx w = (Err e, w) ∧ ConfigurationError e.
Proof.
  intros ctx w.
  destruct (C5_equal_output_paths Runs.env0 ctx w eq_refl)
    as (e & Hrun & Hcfg).
  exists e. split; [exact Hrun|].
  apply Hcfg. vm_compute; reflexivity.
Defined.


(** A root certificate for the subject [Root]: key number 0 is drawn, the
    certificate is written first, and no issuer is loaded. *)
Lemma C7_root_profile_witness :
  let ctx := Demo.cmdline ["Root"; "root.crt"; "root.key"]
               [("type", "x509"); ("profile", "root-ca")] [] in
  let w := Demo.world [] in
  let run := createAction Runs.env0 ctx w in
  (∃ profile, NewRootProfile Runs.env0 "Root" w = (Ok profile, drawn w)
     ∧ IsCA profile = true
     ∧ SigningKey profile = SubjectKey profile)
  ∧ entropy run.2 = 1
  ∧ (∀ caPath caKeyPath, EvLoadIdentity caPath caKeyPath ∉ trace run.2)
  ∧ ∀ k pass path, EvWritePrivateKey k pass path ∈ trace run.2 → k = 0.
Proof.
  intros ctx w run.
  destruct (C7_root_profile Runs.env0 ctx w) as (_ & Hprofile & Hcreate).
  split.
  - destruct (Hprofile "Root" 0) as (profile & Hnew & _ & _ & HCA & Hk & Hs).
    + intros H; discriminate H.
    + reflexivity.
    + exists profile. split; [exact Hnew|]. split; [exact HCA|].
      by rewrite Hk, Hs.
  - assert (NumberOfArguments_ Runs.env0 (NArg ctx) 3 = None) as Hargs
      by (vm_compute; reflexivity).
    assert (Bool_ ctx "no-password" = true → Bool_ ctx "insecure" = true)
      as Hflags by (vm_compute; intros H; discriminate H).
    assert (Get ctx 1 ≠ Get ctx 2) as Hne
      by (vm_compute; intros H; discriminate H).
    destruct (Hcreate Hargs Hflags Hne eq_refl eq_refl eq_refl)
      as (_ & Hroot).
    destruct (Hroot 0 ["c"%byte] run.1 run.2 (trace run.2))
      as (Hent & _ & Hload & Hkey).
    + intros H; discriminate H.
    + reflexivity.
    + reflexivity.
    + apply surjective_pairing.
    + reflexivity.
    + split; [exact Hent|]. split; [exact Hload|exact Hkey].
Defined.



(** * The flag set after parsing *)

Lemma lookup_update_ne (set : cli.FlagSet) (n v name : string) :
  n ≠ name → cli.lookup (cli.update n v set) name = cli.lookup set name.
Proof.
  intros Hne. unfold cli.lookup, cli.update.
  induction set as [|[k x] set IH]; [done|]. simpl.
  destruct (decide (k = n)) as [->|Hk].
  - rewrite (bool_decide_true (n = n)) by done. simpl.
    rewrite (bool_decide_false (n = name)) by done. apply IH.
  - rewrite (bool_decide_false (k = n)) by done. simpl.
    destruct (bool_decide (k = name)); [done|apply IH].
Qed.

Lemma lookup_update_eq (set : cli.FlagSet) (v name : string) :
  is_Some (cli.lookup set name) →
  cli.lookup (cli.update name v set) name = Some v.
Proof.
  unfold cli.lookup, cli.update.
  induction set as [|[k x] set IH]; simpl; [by intros [? ?]|].
  destruct (decide (k = name)) as [->|Hk].
  - intros _. rewrite (bool_decide_true (name = name)) by done. simpl.
    by rewrite (bool_decide_true (name = name)) by done.
  - rewrite !(bool_decide_false (k = name)) by done. simpl.
    rewrite ?(bool_decide_false (k = name)) by done. apply IH.
Qed.

Lemma setFlag_other flags (set set' : cli.FlagSet) (n v name : string) :
  cli.setFlag flags set n v = Some set' →
  n ≠ name →
  cli.lookup set' name = cli.lookup set name.
Proof.
  unfold cli.setFlag. intros Hset Hne.
  destruct (find _ flags) as [[? ?|? ?]|]; [| |done].
  - injection Hset as <-. by apply lookup_update_ne.
  - destruct (cli.ParseBool v); [|done].
    injection Hset as <-. by apply lookup_update_ne.
Qed.

Lemma setFlag_keeps flags (set set' : cli.FlagSet) (n v name : string) :
  cli.setFlag flags set n v = Some set' →
  is_Some (cli.lookup set name) →
  is_Some (cli.lookup set' name).
Proof.
  intros Hset Hin. destruct (decide (n = name)) as [->|Hne].
  - unfold cli.setFlag in Hset.
    destruct (find _ flags) as [[? ?|? ?]|]; [| |done].
    + injection Hset as <-. by rewrite lookup_update_eq.
    + destruct (cli.ParseBool v); [|done].
      injection Hset as <-. by rewrite lookup_update_eq.
  - by rewrite (setFlag_other _ _ _ _ _ _ Hset Hne).
Qed.

(** A flag that the line does not give keeps the value it had. *)
Lemma parse_not_given flags (line : list (string * string)) :
  ∀ (set set' : cli.FlagSet) (name : string),
  cli.parse flags set line = Some set' →
  cli.given line name = None →
  cli.lookup set' name = cli.lookup set name.
Proof.
  induction line as [|[n v] line IH]; intros set set' name; simpl.
  - by intros [= <-].
  - destruct (cli.setFlag flags set n v) as [set1|] eqn:Hset; [|done].
    intros Hparse Hgiven.
    destruct (cli.given line name) eqn:Hrest; [done|].
    case_bool_decide as Hn; [done|].
    rewrite (IH _ _ _ Hparse Hrest). by eapply setFlag_other.
Qed.

(** A string flag that the line gives has the value given last. *)
Lemma parse_given_string flags (line : list (string * string)) :
  ∀ (set set' : cli.FlagSet) (name d v : string),
  find (λ f, bool_decide (cli.flagName f = name)) flags
  = Some (cli.StringFlag name d) →
  is_Some (cli.lookup set name) →
  cli.parse flags set line = Some set' →
  cli.given line name = Some v →
  cli.lookup set' name = Some v.
Proof.
  induction line as [|[n x] line IH]; intros set set' name d v Hflag Hin;
    simpl; [done|].
  destruct (cli.setFlag flags set n x) as [set1|] eqn:Hset; [|done].
  intros Hparse Hgiven.
  destruct (cli.given line name) as [v'|] eqn:Hrest.
  - injection Hgiven as ->.
    eapply IH; [done| |done..]. by eapply setFlag_keeps.
  - case_bool_decide as Hn; [|done]. injection Hgiven as ->. subst n.
    rewrite (parse_not_given _ _ _ _ _ Hparse Hrest).
    unfold cli.setFlag in Hset. rewrite Hflag in Hset.
    injection Hset as <-. by apply lookup_update_eq.
Qed.

(** * More on the verification command *)
Section VerifyMore.

Context {Certificate PrivateKey : Type}.
Context `{codec : pem.Codec}.
Context (env : Env Certificate PrivateKey).

Local Abbreviation World' := (World Certificate PrivateKey).
Local Abbreviation Event' := (Event Certificate PrivateKey).

Lemma verifyAction_stops_early (ctx : Context) (w : World') :
  (∀ err, NumberOfArguments_ env (NArg ctx) 1 = Some err →
     verifyAction env ctx w = (Err err, w))
  ∧ (NumberOfArguments_ env (NArg ctx) 1 = None →
     files w !! Get ctx 0 = None →
     ∃ cause, verifyAction env ctx w
              = (Err (FileError cause (Get ctx 0)),
                 logged w [EvReadFile (Get ctx 0)])).
Proof.
  split.
  - intros err Hargs. unfold verifyAction, NumberOfArguments.
    unfold mbind, M_bind, bind, check, fail. by rewrite Hargs.
  - intros Hargs Hfile. eexists.
    unfold verifyAction, NumberOfArguments, ReadFile, wrapErr.
    unfold mbind, M_bind, bind, check, log, ask, ret, fail.
    rewrite Hargs. simpl. by rewrite Hfile.
Qed.

(** A wrong number of arguments ends the command with the error of
    [errs.NumberOfArguments] before the file is read; a file that cannot
    be read ends it with a file error that carries the path, and nothing
    but the read was attempted. *)
Theorem verifyAction_early_errors (ctx : Context) (w : World') :
  (∀ err, NumberOfArguments_ env (NArg ctx) 1 = Some err →
     verifyAction env ctx w = (Err err, w))
  ∧ (NumberOfArguments_ env (NArg ctx) 1 = None →
     files w !! Get ctx 0 = None →
     ∃ cause, verifyAction env ctx w
              = (Err (FileError cause (Get ctx 0)),
                 logged w [EvReadFile (Get ctx 0)])).
Proof. apply verifyAction_stops_early. Qed.

(** For a bundle whose leaf parses and whose intermediates, if any, give
    at least one certificate, the command returns nil exactly when path
    validation accepts the leaf for the host of [--host], the trust
    anchors and the intermediates; when validation refuses, its error is
    returned under "failed to verify certificate". *)
Theorem verifyAction_verdict (ctx : Context) (w : World') (data : bytes)
    (crt : Certificate) (bs : list pem.Block) :
  NumberOfArguments_ env (NArg ctx) 1 = None →
  files w !! Get ctx 0 = Some data →
  ParseChain env data = Val (Some crt, bs) →
  (bs = [] ∨ 0 < length (intermediatesOf env bs)) →
  let opts := optionsOf env ctx (files w) bs in
  let verdict := validate env crt (String_ ctx "host") (trustAnchors env opts)
                   (intermediatesOf env bs) in
  ((verifyAction env ctx w).1 = Ok () ↔ verdict = None)
  ∧ (∀ err, verdict = Some err →
       (verifyAction env ctx w).1
       = Err (Wrapf err "failed to verify certificate")).
Proof.
  intros Hargs Hfile Hchain Hpool opts verdict.
  rewrite (verifyAction_run env ctx w data) by done. rewrite Hchain.
  replace (bool_decide (bs ≠ [])
           && bool_decide (length (intermediatesOf env bs) = 0))
    with false.
  2:{ symmetry. destruct Hpool as [->|Hpos].
      - by rewrite bool_decide_false by (intros ?; done).
      - rewrite (bool_decide_false (_ = 0)) by lia. apply andb_false_r. }
  simpl. fold opts. fold verdict.
  destruct verdict as [e|]; split; try done.
  - by intros e' [= ->].
Qed.

(** The command only reads: in every run the files and the random source
    are as before, at most three calls are logged, and each is the read of
    the file argument, the load of the [--roots] value, or a validation
    for the host of [--host]. *)
Theorem verifyAction_reads_only (ctx : Context) (w w' : World')
    (r : Outcome unit) :
  verifyAction env ctx w = (r, w') →
  files w' = files w
  ∧ entropy w' = entropy w
  ∧ ∃ evs, trace w' = trace w ++ evs
      ∧ length evs ≤ 3
      ∧ Forall (verifyCall ctx) evs.
Proof.
  intros Hrun.
  destruct (NumberOfArguments_ env (NArg ctx) 1) as [e|] eqn:Hargs.
  { rewrite (proj1 (verifyAction_stops_early ctx w) e Hargs) in Hrun.
    injection Hrun as <- <-. do 2 (split; [done|]).
    exists []. rewrite app_nil_r. split; [done|]. split; [simpl; lia|done]. }
  assert (verifyCall ctx (EvReadFile (Get ctx 0) : Event')) as Hread
    by by left.
  destruct (files w !! Get ctx 0) as [data|] eqn:Hfile.
  2:{ destruct (proj2 (verifyAction_stops_early ctx w) Hargs Hfile)
        as (cause & Hrun').
      rewrite Hrun' in Hrun. injection Hrun as <- <-.
      do 2 (split; [done|]). eexists. split; [done|].
      split; [simpl; lia|]. by constructor. }
  rewrite (verifyAction_run env ctx w data) in Hrun by done.
  assert (Forall (verifyCall ctx) (rootsCalls ctx : list Event')) as Hroots.
  { unfold rootsCalls. case_bool_decide.
    - constructor; [by left|]. constructor; [right; by left|constructor].
    - constructor; [by left|constructor]. }
  assert (length (rootsCalls ctx : list Event') ≤ 2) as Hlen.
  { unfold rootsCalls. case_bool_decide; simpl; lia. }
  destruct (ParseChain env data) as [[crt bs]|e].
  2:{ injection Hrun as <- <-. do 2 (split; [done|]). eexists.
      split; [done|]. split; [simpl; lia|]. by constructor. }
  destruct (bool_decide (bs ≠ []) && _).
  { injection Hrun as <- <-. do 2 (split; [done|]). eexists.
    split; [done|]. split; [simpl; lia|]. by constructor. }
  destruct crt as [c|]; injection Hrun as <- <-;
    do 2 (split; [done|]); (eexists; split; [done|]).
  - case_bool_decide; (split; [simpl; lia|]);
      repeat (constructor;
              [first [by left | right; by left
                     | right; right; by eexists _, _]|]);
      constructor.
  - split; [lia|done].
Qed.

(** The outcome depends on the file only through its CERTIFICATE blocks:
    text outside the blocks and blocks of other types make no difference
    to what the command returns. *)
Theorem verifyAction_certificate_blocks_only (ctx : Context)
    (w1 w2 : World') (data1 data2 : bytes) :
  NumberOfArguments_ env (NArg ctx) 1 = None →
  files w1 !! Get ctx 0 = Some data1 →
  files w2 !! Get ctx 0 = Some data2 →
  certificateBlocks data1 = certificateBlocks data2 →
  ReadCertPool_ env (files w1) (String_ ctx "roots")
  = ReadCertPool_ env (files w2) (String_ ctx "roots") →
  (verifyAction env ctx w1).1 = (verifyAction env ctx w2).1.
Proof.
  intros Hargs Hf1 Hf2 Hblocks Hroots.
  rewrite (verifyAction_run env ctx w1 data1) by done.
  rewrite (verifyAction_run env ctx w2 data2) by done.
  unfold ParseChain, optionsOf. rewrite Hblocks, Hroots.
  destruct (certificateBlocks data2) as [|leaf bs]; simpl.
  - done.
  - destruct (ParseCertificate env (pem.Bytes leaf)) as [c|e]; [|done].
    by destruct (bool_decide (bs ≠ []) && _).
Qed.


(** The command ends on every input, with nil, with an error, or with the
    nil pointer panic; and it panics exactly when its file is readable and
    holds no CERTIFICATE block. *)
Theorem verifyAction_outcomes (ctx : Context) (w : World') :
  ((verifyAction env ctx w).1 = Ok ()
   ∨ (∃ err, (verifyAction env ctx w).1 = Err err)
   ∨ (verifyAction env ctx w).1
     = Panic "invalid memory address or nil pointer dereference")
  ∧ ((∃ why, (verifyAction env ctx w).1 = Panic why)
     ↔ NumberOfArguments_ env (NArg ctx) 1 = None
       ∧ ∃ data, files w !! Get ctx 0 = Some data
           ∧ certificateBlocks data = []).
Proof.
  destruct (NumberOfArguments_ env (NArg ctx) 1) as [e|] eqn:Hargs.
  { rewrite (proj1 (verifyAction_stops_early ctx w) e Hargs). simpl.
    split; [by eauto|]. split; [by intros [? ?]|by intros [? _]]. }
  destruct (files w !! Get ctx 0) as [data|] eqn:Hfile.
  2:{ destruct (proj2 (verifyAction_stops_early ctx w) Hargs Hfile)
        as (cause & ->). simpl.
      split; [by eauto|].
      split; [by intros [? ?]|by intros (_ & ? & ? & _)]. }
  rewrite (verifyAction_run env ctx w data) by done. unfold ParseChain.
  destruct (certificateBlocks data) as [|leaf bs] eqn:Hblocks; simpl.
  { split; [by right; right|].
    split; [intros _; split; [done|by exists data]|intros _; by eexists]. }
  destruct (ParseCertificate env (pem.Bytes leaf)) as [c|e]; simpl.
  2:{ split; [by eauto|].
      split; [by intros [? ?]|intros (_ & ? & [= <-] & ?); congruence]. }
  destruct (bool_decide (bs ≠ []) && _); simpl.
  { split; [by eauto|].
    split; [by intros [? ?]|intros (_ & ? & [= <-] & ?); congruence]. }
  destruct (validate env c _ _ _); simpl;
    (split; [by eauto|]);
    (split; [by intros [? ?]|intros (_ & ? & [= <-] & ?); congruence]).
Qed.

(** Run through its command on a line that the flag parser accepts and
    that gives no [--roots], verification does not call the loader and
    validates against the system roots, for the host that [--host] gives
    last, or no host when it is absent. *)
Theorem verifyCommand_defaults (args : list string)
    (line : list (string * string)) (action : M Certificate PrivateKey unit)
    (w w' : World') (r : Outcome unit) (evs : list Event') :
  cli.Run (verifyCommand env) args line = Some action →
  cli.given line "roots" = None →
  action w = (r, w') →
  trace w' = trace w ++ evs →
  (∀ roots, EvReadCertPool roots ∉ evs)
  ∧ ∀ c opts, EvVerify c opts ∈ evs →
      Roots opts = None
      ∧ trustAnchors env opts = systemRoots env
      ∧ DNSName opts = default "" (cli.given line "host").
Proof.
  intros Hcmd Hroots Hrun Htrace. unfold cli.Run in Hcmd.
  destruct (cli.parse _ _ line) as [set|] eqn:Hparse; [|done].
  injection Hcmd as <-. simpl in Hrun, Hparse.
  set (ctx := cli.context set args) in Hrun.
  assert (String_ ctx "roots" = "") as Hr.
  { unfold ctx. cbn [cli.context String_].
    by rewrite (parse_not_given _ _ _ _ _ Hparse Hroots). }
  assert (String_ ctx "host" = default "" (cli.given line "host")) as Hh.
  { unfold ctx. cbn [cli.context String_].
    destruct (cli.given line "host") as [h|] eqn:Hhost.
    - assert (cli.lookup set "host" = Some h) as ->; [|done].
      eapply parse_given_string; [| |exact Hparse|exact Hhost];
        [reflexivity|by eexists].
    - by rewrite (parse_not_given _ _ _ _ _ Hparse Hhost). }
  assert (∀ evs', w' = logged w evs' → evs' = evs) as Hevs.
  { intros evs' ->. simpl in Htrace. by apply app_inv_head in Htrace. }
  destruct (NumberOfArguments_ env (NArg ctx) 1) as [e|] eqn:Hargs.
  { rewrite (proj1 (verifyAction_stops_early ctx w) e Hargs) in Hrun.
    injection Hrun as <- <-.
    assert (evs = []) as ->.
    { apply (f_equal length) in Htrace. rewrite length_app in Htrace.
      destruct evs; [done|simpl in Htrace; lia]. }
    split; [intros roots Hin|intros c opts Hin]; elem_inv. }
  destruct (files w !! Get ctx 0) as [data|] eqn:Hfile.
  2:{ destruct (proj2 (verifyAction_stops_early ctx w) Hargs Hfile)
        as (cause & Hrun').
      rewrite Hrun' in Hrun. injection Hrun as <- <-.
      rewrite <-(Hevs _ eq_refl).
      split; [intros roots Hin|intros c opts Hin]; elem_inv. }
  rewrite (verifyAction_run env ctx w data) in Hrun by done.
  unfold rootsCalls, optionsOf, trustAnchors in Hrun.
  rewrite Hr in Hrun. rewrite !bool_decide_false in Hrun by (intros ?; done).
  destruct (ParseChain env data) as [[crt bs]|e].
  2:{ injection Hrun as <- <-. rewrite <-(Hevs _ eq_refl).
      split; [intros roots Hin|intros c opts Hin]; elem_inv. }
  destruct (bool_decide (bs ≠ []) && _).
  { injection Hrun as <- <-. rewrite <-(Hevs _ eq_refl).
    split; [intros roots Hin|intros c opts Hin]; elem_inv. }
  destruct crt as [c|]; injection Hrun as <- <-; rewrite <-(Hevs _ eq_refl);
    (split; [intros roots Hin|intros c' opts Hin]); simpl in Hin; elem_inv.
  done.
Qed.

End VerifyMore.

(** * More on the creation command *)
Section CreateMore.

Context {Certificate PrivateKey : Type}.
Context `{codec : pem.Codec}.
Context (env : Env Certificate PrivateKey).

Local Abbreviation World' := (World Certificate PrivateKey).
Local Abbreviation Event' := (Event Certificate PrivateKey).

Local Ltac run :=
  unfold mbind, M_bind, bind, wrapErr, lift, check, log, ask, ret, fail,
    draw, store in *;
  simpl in *.

Local Ltac name_shape :=
  try match goal with
    | H : Forall issuerEvent _ |- _ => rename H into Hiss end;
  try match goal with
    | H : outputShape _ _ _ _ _ _ _ _ _ _ |- _ => rename H into Hout end.

(** Past the three checks, the command is the switch followed by the
    output stage. *)
Lemma createAction_checked (ctx : Context) (w : World') :
  NumberOfArguments_ env (NArg ctx) 3 = None →
  (Bool_ ctx "no-password" = true → Bool_ ctx "insecure" = true) →
  Get ctx 1 ≠ Get ctx 2 →
  createAction env ctx w
  = ('(priv, pubPEM) ← produce env ctx;
     outputStage env (negb (Bool_ ctx "no-password"))
       (Get ctx 1) (Get ctx 2) priv pubPEM) w.
Proof.
  intros Hargs Hflags Hne. rewrite createAction_stages.
  unfold NumberOfArguments, usePasswordOf. run. rewrite Hargs. run.
  destruct (Bool_ ctx "no-password"); run;
    [rewrite Hflags by done; run|];
    by rewrite bool_decide_false by done.
Qed.

(** Cases of a run, with the files at its end made a variable. *)
Lemma createAction_cases (ctx : Context) (w w' : World') r evs :
  createAction env ctx w = (r, w') →
  trace w' = trace w ++ evs →
  ∃ fs, files w' = fs ∧ runShape env ctx w r evs fs.
Proof.
  intros Hrun Htrace. eexists. split; [done|].
  by apply createAction_shape.
Qed.

(** [--csr] wins over [--type]: with it the command does the same
    whatever [--type], [--profile], [--ca] and [--ca-key] hold. *)
Theorem createAction_csr_overrides (ctx ctx' : Context) (w : World') :
  Bool_ ctx "csr" = true →
  Args ctx' = Args ctx →
  Bool_ ctx' = Bool_ ctx →
  (∀ name, name ∉ ["type"; "profile"; "ca"; "ca-key"] →
           String_ ctx' name = String_ ctx name) →
  createAction env ctx' w = createAction env ctx w.
Proof.
  intros Hcsr HArgs HBool HString. rewrite !createAction_stages.
  unfold NumberOfArguments, usePasswordOf, produce, NArg, Get.
  rewrite HArgs, HBool, Hcsr. done.
Qed.


(** A type or a profile the switch does not know ends the command with
    the error for it, before any key is drawn or file written: "ssh" is
    refused as incomplete, another type and another profile with the list
    of the values accepted. *)
Theorem createAction_unsupported (ctx : Context) (w : World') :
  NumberOfArguments_ env (NArg ctx) 3 = None →
  (Bool_ ctx "no-password" = true → Bool_ ctx "insecure" = true) →
  Get ctx 1 ≠ Get ctx 2 →
  Bool_ ctx "csr" = false →
  (String_ ctx "type" = "ssh" →
   createAction env ctx w
   = (Err (Errorf "implementation incomplete! Come back later ..."), w))
  ∧ (String_ ctx "type" ∉ ["x509-csr"; "x509"; "ssh"] →
     createAction env ctx w
     = (Err (InvalidFlagValue "type" (String_ ctx "type") "x509, ssh"), w))
  ∧ (String_ ctx "type" = "x509" →
     String_ ctx "profile" ∉ ["leaf"; "intermediate-ca"; "root-ca"] →
     createAction env ctx w
     = (Err (InvalidFlagValue "profile" (String_ ctx "profile")
               "leaf, intermediate-ca, root-ca"), w)).
Proof.
  intros Hargs Hflags Hne Hcsr.
  split; [|split].
  - intros Htyp. rewrite createAction_checked by done.
    unfold produce. run. by rewrite Hcsr, Htyp.
  - intros Htyp. rewrite createAction_checked by done.
    unfold produce. run. rewrite Hcsr.
    rewrite !bool_decide_false; [done|..]; intros Heq; apply Htyp;
      rewrite Heq; elem_here.
  - intros Htyp Hprof. rewrite createAction_checked by done.
    unfold produce. run. rewrite Hcsr, Htyp. run.
    rewrite !bool_decide_false; [done|..]; intros Heq; apply Hprof;
      rewrite Heq; elem_here.
Qed.


Lemma issuer_writes (evs : list Event') :
  Forall issuerEvent evs → writes evs = [].
Proof.
  unfold writes. induction 1 as [|ev evs Hev _ IH]; [done|].
  destruct ev; simpl in *; done.
Qed.

(** The write calls of the command, whatever the two paths name on the
    disk: [WriteFile] is called once at most, for the certificate path
    with mode 0600, and [WritePrivateKey] once at most, for the key path
    and after it.  When the command returns nil both calls were made; with
    no write call it has failed and no file has changed; with the first
    alone it has failed. *)
Theorem createAction_writes (ctx : Context) (w w' : World')
    (r : Outcome unit) (evs : list Event') :
  createAction env ctx w = (r, w') →
  trace w' = trace w ++ evs →
  (writes evs = [] ∧ files w' = files w ∧ ∃ e, r = Err e)
  ∨ (∃ data,
       writes evs = [EvWriteFile (Get ctx 1) data FileMode0600]
       ∧ ∃ e, r = Err e)
  ∨ (∃ data key pass,
       writes evs = [EvWriteFile (Get ctx 1) data FileMode0600;
                     EvWritePrivateKey key pass (Get ctx 2)]
       ∧ (r = Ok () ∨ ∃ e, r = Err (WithStack e))).
Proof.
  intros Hrun Htrace.
  destruct (createAction_cases ctx w w' r evs Hrun Htrace)
    as (fs & -> & Hshape).
  clear Hrun Htrace. destruct Hshape; name_shape.
  { left. split; [by apply issuer_writes|]. by eauto. }
  right. unfold writes. rewrite List.filter_app.
  fold (writes evs). rewrite (issuer_writes _ Hiss). simpl.
  destruct Hout.
  - left. eexists. split; [done|by eauto].
  - left. eexists. split; [done|by eauto].
  - right. eexists _, _, _. split; [by destruct (negb _)|by eauto].
  - right. eexists _, _, _. split; [by destruct (negb _)|by eauto].
Qed.

(** A leaf or an intermediate certificate is issued from the identity
    loaded from [--ca] and [--ca-key]: the issuer is loaded before
    anything else, the profile is built from its certificate and key, the
    certificate made from that profile is what is written to the
    certificate file, and the key written is the subject key of the
    profile. *)
Theorem createAction_issued (ctx : Context) (w w' : World')
    (pass : option string) (issuer : Identity) (profile : Profile)
    (der : bytes) (r : Outcome unit) (evs : list Event') :
  NumberOfArguments_ env (NArg ctx) 3 = None →
  (Bool_ ctx "no-password" = true → Bool_ ctx "insecure" = true) →
  Get ctx 1 ≠ Get ctx 2 →
  Bool_ ctx "csr" = false →
  String_ ctx "type" = "x509" →
  String_ ctx "profile" = "leaf" ∨ String_ ctx "profile" = "intermediate-ca" →
  String_ ctx "ca" ≠ "" →
  String_ ctx "ca-key" ≠ "" →
  issuerPassword env (files w) (String_ ctx "ca-key") = Val pass →
  LoadIdentityFromDisk_ env (files w) (String_ ctx "ca")
    (String_ ctx "ca-key") pass = Val issuer →
  issuedProfile env (String_ ctx "profile") (entropy w) (Get ctx 0)
    (Crt issuer) (Key issuer) = Val profile →
  CreateCertificate_ env profile = Val der →
  createAction env ctx w = (r, w') →
  trace w' = trace w ++ evs →
  (∃ out,
     evs = issuerCalls env (files w) (String_ ctx "ca") (String_ ctx "ca-key")
           ++ EvWriteFile (Get ctx 1)
                (pem.EncodeToMemory (pem.mkBlock "CERTIFICATE" [] der))
                FileMode0600 :: out)
  ∧ (∀ k pw path, EvWritePrivateKey k pw path ∈ evs →
       k = SubjectKey profile).
Proof.
  intros Hargs Hflags Hne Hcsr Htyp Hprof Hca Hcakey Hpass Hload Hnew Hder.
  rewrite createAction_checked by done.
  unfold produce, loadIssuerIdentity, LoadIdentityFromDisk,
    ReadPasswordSubtle, NewLeafProfile, NewIntermediateProfile,
    CreateCertificate, SubjectPrivateKey.
  unfold issuerPassword in Hpass. unfold issuedProfile in Hnew.
  unfold issuerCalls.
  run. rewrite Hcsr, Htyp. run.
  rewrite (bool_decide_false (String_ ctx "ca" = "")) by done.
  rewrite (bool_decide_false (String_ ctx "ca-key" = "")) by done.
  destruct Hprof as [Hprof|Hprof]; rewrite Hprof in *; run;
    destruct (keyIsEncrypted env (files w) (String_ ctx "ca-key")); run;
    try (destruct (ReadPasswordSubtle_ env _ _ _) as [pw|e]; run);
    simplify_eq; rewrite Hload; run; rewrite Hnew; run; rewrite Hder; run;
    rewrite outputStage_run; unfold logged, stored; simpl;
    intros Hrun Htrace;
    repeat case_match; injection Hrun as <- <-; simpl in *;
    rewrite <-?app_assoc in Htrace; apply app_inv_head in Htrace;
    subst evs; (split; [by eexists|]);
    intros ??? Hin; simpl in Hin; by elem_inv.
Qed.

(** Run through its command on a line that the flag parser accepts and
    that gives none of [--type], [--profile], [--csr], [--ca] and
    [--no-password], creation takes the declared defaults, an x509
    certificate of the leaf profile, and so fails for want of an issuer,
    naming [--ca], before anything happens. *)
Theorem createCommand_defaults (args : list string)
    (line : list (string * string)) (action : M Certificate PrivateKey unit)
    (w : World') :
  cli.Run (createCommand env) args line = Some action →
  NumberOfArguments_ env (length args) 3 = None →
  nth 1 args "" ≠ nth 2 args "" →
  (∀ name, name ∈ ["type"; "profile"; "csr"; "ca"; "no-password"] →
           cli.given line name = None) →
  ∃ msg, action w = (Err (WithStack (Errorf msg)), w)
    ∧ String.prefix "Missing value for flag '--ca'." msg = true.
Proof.
  intros Hcmd Hargs Hne Hgiven. unfold cli.Run in Hcmd.
  destruct (cli.parse _ _ line) as [set|] eqn:Hparse; [|done].
  injection Hcmd as <-. simpl in Hparse. simpl.
  set (ctx := cli.context set args).
  assert (∀ name, name ∈ ["type"; "profile"; "csr"; "ca"; "no-password"] →
          cli.lookup set name
          = cli.lookup (cli.newFlagSet (cli.Flags (createCommand env))) name)
    as Hvalue.
  { intros name Hin.
    apply (parse_not_given _ _ _ _ _ Hparse (Hgiven name Hin)). }
  assert (String_ ctx "type" = "x509") as Htyp
    by (unfold ctx; cbn [cli.context String_]; rewrite Hvalue by elem_here;
        reflexivity).
  assert (String_ ctx "profile" = "leaf") as Hprof
    by (unfold ctx; cbn [cli.context String_]; rewrite Hvalue by elem_here;
        reflexivity).
  assert (String_ ctx "ca" = "") as Hca
    by (unfold ctx; cbn [cli.context String_]; rewrite Hvalue by elem_here;
        reflexivity).
  assert (Bool_ ctx "csr" = false) as Hcsr
    by (unfold ctx; cbn [cli.context Bool_]; rewrite Hvalue by elem_here;
        reflexivity).
  assert (Bool_ ctx "no-password" = false) as Hnp
    by (unfold ctx; cbn [cli.context Bool_]; rewrite Hvalue by elem_here;
        reflexivity).
  rewrite createAction_checked; [|done|by rewrite Hnp|done].
  unfold produce, loadIssuerIdentity. run.
  rewrite Hcsr, Htyp, Hprof, Hca. run. by eexists.
Qed.

End CreateMore.


(** * The further properties on concrete runs *)

(** No argument at all, and a file that does not exist. *)
Lemma verifyAction_early_errors_witness :
  verifyAction Runs.env0 (Demo.cmdline [] [] []) (Demo.world [])
  = (Err (External "wrong number of arguments"), Demo.world [])
  ∧ ∃ cause,
      verifyAction Runs.env0 (Demo.cmdline ["gone.crt"] [] []) (Demo.world [])
      = (Err (FileError cause "gone.crt"),
         logged (Demo.world []) [EvReadFile "gone.crt"]).
Proof.
  split.
  - apply (proj1 (verifyAction_early_errors Runs.env0
                    (Demo.cmdline [] [] []) (Demo.world []))).
    reflexivity.
  - apply (proj2 (verifyAction_early_errors Runs.env0
                    (Demo.cmdline ["gone.crt"] [] []) (Demo.world []))).
    + reflexivity.
    + vm_compute; reflexivity.
Defined.

(** A leaf that no root vouches for. *)
Lemma verifyAction_verdict_witness :
  (verifyAction Runs.env0 (Demo.cmdline ["leaf.crt"] [] [])
     (Demo.world [("leaf.crt", Runs.pemText "Cx")])).1
  = Err (Wrapf (External "x509: certificate signed by unknown authority")
           "failed to verify certificate").
Proof.
  refine (proj2 (verifyAction_verdict Runs.env0
                   (Demo.cmdline ["leaf.crt"] [] [])
                   (Demo.world [("leaf.crt", Runs.pemText "Cx")])
                   (Runs.pemText "Cx") "x"%byte [] _ _ _ _) _ _).
  - vm_compute; reflexivity.
  - vm_compute; reflexivity.
  - vm_compute; reflexivity.
  - left; reflexivity.
  - vm_compute; reflexivity.
Defined.

(** A verification with roots and two intermediates leaves the disk as
    it was. *)
Lemma verifyAction_reads_only_witness :
  let w := Demo.world [("leaf.crt", Runs.pemText "CxCaCb");
                       ("roots.pem", Runs.pemText "Cx")] in
  let run := verifyAction Runs.env0
               (Demo.cmdline ["leaf.crt"] [("roots", "roots.pem")] []) w in
  run.1 = Ok () ∧ files run.2 = files w ∧ entropy run.2 = entropy w.
Proof.
  intros w run. split; [vm_compute; reflexivity|].
  destruct (verifyAction_reads_only Runs.env0 _ w run.2 run.1
              (surjective_pairing run)) as (Hfiles & Hent & _).
  split; [exact Hfiles|exact Hent].
Defined.

(** The same certificates, once bare and once among a key and text. *)
Lemma verifyAction_certificate_blocks_only_witness :
  (verifyAction Runs.env0 (Demo.cmdline ["leaf.crt"] [] [])
     (Demo.world [("leaf.crt", Runs.pemText "CsCa")])).1
  = (verifyAction Runs.env0 (Demo.cmdline ["leaf.crt"] [] [])
       (Demo.world [("leaf.crt", Runs.pemText "Kk--Cs..CaKz")])).1.
Proof.
  apply (verifyAction_certificate_blocks_only Runs.env0
           (Demo.cmdline ["leaf.crt"] [] []) _ _
           (Runs.pemText "CsCa") (Runs.pemText "Kk--Cs..CaKz"));
    vm_compute; reflexivity.
Defined.


(** [step certificate verify leaf.crt --host other.com --host example.com]:
    the host given last is the one verified. *)
Lemma verifyCommand_defaults_witness :
  let w := Demo.world [("leaf.crt", Runs.pemText "Cs")] in
  let line := [("host", "other.com"); ("host", "example.com")] in
  let action := verifyAction Runs.env0
                  (cli.context [("host", "example.com"); ("roots", "")]
                     ["leaf.crt"]) in
  cli.Run (verifyCommand Runs.env0) ["leaf.crt"] line = Some action
  ∧ (∃ c opts, EvVerify c opts ∈ trace (action w).2)
  ∧ ∀ c opts, EvVerify c opts ∈ trace (action w).2 →
      Roots opts = None ∧ DNSName opts = "example.com".
Proof.
  intros w line action.
  assert (cli.Run (verifyCommand Runs.env0) ["leaf.crt"] line = Some action)
    as Hcmd by reflexivity.
  split; [exact Hcmd|]. split.
  { eexists _, _. vm_compute. elem_here. }
  intros c opts Hin.
  destruct (verifyCommand_defaults Runs.env0 ["leaf.crt"] line action
              w (action w).2 (action w).1 (trace (action w).2)
              Hcmd eq_refl (surjective_pairing (action w)) eq_refl)
    as (_ & Hverify).
  destruct (Hverify c opts Hin) as (Hroots & _ & Hhost).
  split; [exact Hroots|exact Hhost].
Defined.

(** [--csr] with [--type ssh] does what [--csr] alone does. *)
Lemma createAction_csr_overrides_witness :
  createAction Runs.env0
    (Demo.cmdline ["foo"; "foo.csr"; "foo.key"] [("type", "ssh")] ["csr"])
    (Demo.world [])
  = createAction Runs.env0
      (Demo.cmdline ["foo"; "foo.csr"; "foo.key"] [("type", "x509")] ["csr"])
      (Demo.world []).
Proof.
  apply (createAction_csr_overrides Runs.env0).
  - reflexivity.
  - reflexivity.
  - reflexivity.
  - intros name Hname. unfold Demo.cmdline. simpl.
    case_bool_decide as Heq; [|reflexivity].
    exfalso. apply Hname. rewrite <-Heq. elem_here.
Defined.


(** A profile the switch does not know. *)
Lemma createAction_unsupported_witness :
  let ctx := Demo.cmdline ["foo"; "foo.crt"; "foo.key"]
               [("type", "x509"); ("profile", "client")] [] in
  createAction Runs.env0 ctx (Demo.world [])
  = (Err (InvalidFlagValue "profile" "client"
            "leaf, intermediate-ca, root-ca"), Demo.world []).
Proof.
  intros ctx.
  refine (proj2 (proj2 (createAction_unsupported Runs.env0 ctx
                          (Demo.world []) _ _ _ _)) _ _).
  - vm_compute; reflexivity.
  - vm_compute; intros H; discriminate H.
  - vm_compute; intros H; discriminate H.
  - vm_compute; reflexivity.
  - vm_compute; reflexivity.
  - intros Hin.
    change ("client" ∈ ["leaf"; "intermediate-ca"; "root-ca"]) in Hin.
    elem_inv.
Defined.


(** A root certificate and its key: two write calls, in that order. *)
Lemma createAction_writes_witness :
  let ctx := Demo.cmdline ["Root"; "root.crt"; "root.key"]
               [("type", "x509"); ("profile", "root-ca")] [] in
  let run := createAction Runs.env0 ctx (Demo.world []) in
  run.1 = Ok ()
  ∧ ∃ data key pass,
      writes (trace run.2)
      = [EvWriteFile "root.crt" data FileMode0600;
         EvWritePrivateKey key pass "root.key"].
Proof.
  intros ctx run.
  assert (run.1 = Ok ()) as Hok by (vm_compute; reflexivity).
  split; [exact Hok|].
  destruct (createAction_writes Runs.env0 ctx (Demo.world []) run.2 run.1
              (trace run.2) (surjective_pairing run) eq_refl)
    as [(_ & _ & e & He)|[(data & _ & e & He)|(data & key & pass & Hw & _)]].
  - rewrite Hok in He. discriminate He.
  - rewrite Hok in He. discriminate He.
  - exists data, key, pass. exact Hw.
Defined.

(** A leaf for [example.com] issued by the identity of [ca.crt] and
    [ca.key]. *)
Lemma createAction_issued_witness :
  let ctx := Demo.cmdline ["example.com"; "leaf.crt"; "leaf.key"]
               [("type", "x509"); ("profile", "leaf");
                ("ca", "ca.crt"); ("ca-key", "ca.key")] [] in
  let w := Demo.world [("ca.crt", Runs.pemText "Cr");
                       ("ca.key", Runs.pemText "Kk")] in
  let run := createAction Runs.env0 ctx w in
  (∃ out,
     trace run.2
     = EvLoadIdentity "ca.crt" "ca.key"
       :: EvWriteFile "leaf.crt" (Runs.pemText "Cc") FileMode0600 :: out)
  ∧ ∀ k pw path, EvWritePrivateKey k pw path ∈ trace run.2 → k = 0.
Proof.
  intros ctx w run.
  refine (createAction_issued Runs.env0 ctx w run.2 None
            (mkIdentity "r"%byte 7)
            (mkProfile "example.com" "ca" false 0 7) ["c"%byte]
            run.1 (trace run.2) _ _ _ _ _ _ _ _ _ _ _ _ _ _).
  - vm_compute; reflexivity.
  - vm_compute; intros H; discriminate H.
  - vm_compute; intros H; discriminate H.
  - vm_compute; reflexivity.
  - vm_compute; reflexivity.
  - left; vm_compute; reflexivity.
  - vm_compute; intros H; discriminate H.
  - vm_compute; intros H; discriminate H.
  - vm_compute; reflexivity.
  - vm_compute; reflexivity.
  - vm_compute; reflexivity.
  - vm_compute; reflexivity.
  - apply surjective_pairing.
  - reflexivity.
Defined.

(** [step certificate create foo foo.crt foo.key --insecure]. *)
Lemma createCommand_defaults_witness :
  let args := ["foo"; "foo.crt"; "foo.key"] in
  let action := createAction Runs.env0
                  (cli.context
                     [("type", "x509"); ("profile", "leaf"); ("csr", "false");
                      ("ca", ""); ("ca-key", ""); ("no-password", "false");
                      ("insecure", "true")] args) in
  cli.Run (createCommand Runs.env0) args [("insecure", "true")] = Some action
  ∧ ∃ msg, action (Demo.world []) = (Err (WithStack (Errorf msg)), Demo.world [])
      ∧ String.prefix "Missing value for flag '--ca'." msg = true.
Proof.
  intros args action.
  assert (cli.Run (createCommand Runs.env0) args [("insecure", "true")]
          = Some action) as Hcmd by reflexivity.
  split; [exact Hcmd|].
  apply (createCommand_defaults Runs.env0 args [("insecure", "true")]).
  - exact Hcmd.
  - reflexivity.
  - intros H; discriminate H.
  - intros name Hin. elem_inv; reflexivity.
Defined.

(** A file that holds a private key only. *)
Lemma verifyAction_outcomes_witness :
  ∃ why,
    (verifyAction Runs.env0 (Demo.cmdline ["leaf.crt"] [] [])
       (Demo.world [("leaf.crt", Runs.pemText "Kk")])).1 = Panic why.
Proof.
  apply (proj2 (verifyAction_outcomes Runs.env0
                  (Demo.cmdline ["leaf.crt"] [] [])
                  (Demo.world [("leaf.crt", Runs.pemText "Kk")]))).
  split; [reflexivity|].
  exists (Runs.pemText "Kk"). split; vm_compute; reflexivity.
Defined.
